(** * Verification of the EasyOCR pre-processing model ([pre/1/model.py])

    The development embeds [normalizeMeanVariance] and
    [TritonPythonModel.execute] and settles the properties stated about them.

    Conventions of the embedding:
    - Python exceptions are values of [exn]; code that may raise returns a
      [result]; code that also calls the image decoder runs in the monad [M],
      which threads the log of decoder calls.
    - NumPy arrays are a shape together with an indexing function.
    - Python floats are IEEE 754 binary64 and [np.float32] is binary32, both
      taken from the executable specification [SpecFloat] of the Standard
      Library (round to nearest, ties to even).
    - The image library is outside the repository: decoding and resampling are
      variables of the section that contains [execute]. *)

From Stdlib Require Import ZArith List String Bool Lia.
From Stdlib.Strings Require Import Byte.
From Stdlib Require Import SpecFloat.
Import ListNotations.

Set Implicit Arguments.

(** ** Exceptions and results *)

(** The element types of NumPy arrays that the serving host can deliver or
    that the model configuration can name. *)
Inductive np_dtype :=
| np_object_ | np_bytes_ | np_bool_
| np_uint8 | np_uint16 | np_int32 | np_int64
| np_float16 | np_float32 | np_float64.

Definition is_np_object_ (d : np_dtype) : bool :=
  match d with np_object_ => true | _ => false end.

(** The [ValueError]s of the module, by the place that raises them. *)
Inductive value_error :=
| Input_tensor_not_found (input_name request_id : string)   (* line 63 *)
| Output_not_requested (output_name : string) (requested : list string) (* line 67 *)
| Input_datatype_not_object (got : np_dtype)                (* line 74 *)
| Unsupported_channels (ndim : nat)                         (* line 92 *)
| Not_enough_values_to_unpack                               (* [h, w = ...] *)
| Operands_not_broadcast (s1 s2 : list nat)                 (* NumPy, in-place op *)
| Axes_do_not_match.                                        (* NumPy, transpose *)

Inductive exn :=
| ValueError (why : value_error)
| KeyError (key : string)          (* [batch_out[key]] on an absent key *)
| IndexError                       (* [img[0]] on an empty row *)
| TypeError                        (* [io.BytesIO] of something that is not bytes *)
| UnidentifiedImageError           (* the decoder rejects the buffer *)
| cv2_error.                       (* [cv2.cvtColor] rejects its argument *)

Inductive result (A : Type) :=
| Ok (a : A)
| Raise (e : exn).
Arguments Raise {A} e.

Definition result_bind {A B} (r : result A) (k : A -> result B) : result B :=
  match r with
  | Ok a => k a
  | Raise e => Raise e
  end.

Notation "'let?' x ':=' r 'in' k" := (result_bind r (fun x => k))
  (at level 10, x pattern, r at level 100, k at level 200).

Fixpoint result_map {A B} (f : A -> result B) (l : list A) : result (list B) :=
  match l with
  | [] => Ok []
  | a :: l' =>
      let? b := f a in
      let? bs := result_map f l' in
      Ok (b :: bs)
  end.

(** ** Floating point *)

Definition float64 := spec_float.
Definition float32 := spec_float.

Definition float64_of_Z (z : Z) : float64 := binary_normalize 53 1024 z 0 false.
Definition float64_mul : float64 -> float64 -> float64 := SFmul 53 1024.
Definition float64_div : float64 -> float64 -> float64 := SFdiv 53 1024.

(** A decimal literal [n / 10^3] of the source, such as [0.485]: the binary64
    number nearest to that rational. *)
Definition milli (n : Z) : float64 :=
  float64_div (float64_of_Z n) (float64_of_Z 1000).

(** Python's [a / b] on integers (both far below [2^53] here). *)
Definition py_truediv (a b : Z) : float64 :=
  float64_div (float64_of_Z a) (float64_of_Z b).

Definition float32_of_Z (z : Z) : float32 := binary_normalize 24 128 z 0 false.
Definition float32_sub : float32 -> float32 -> float32 := SFsub 24 128.
Definition float32_div : float32 -> float32 -> float32 := SFdiv 24 128.

(** Conversion of a binary64 number to [np.float32]. *)
Definition float32_of_float64 (x : float64) : float32 :=
  match x with
  | S754_finite s m e => binary_normalize 24 128 (cond_Zopp s (Zpos m)) e s
  | _ => x
  end.

(** ** NumPy arrays *)

Record ndarray (A : Type) := mk_ndarray {
  shape : list nat;
  item : list nat -> A
}.

Definition ndim {A} (a : ndarray A) : nat := List.length (shape a).

Definition astype {A B} (f : A -> B) (a : ndarray A) : ndarray B :=
  {| shape := shape a; item := fun idx => f (item a idx) |}.

(** [np.array([x0, x1, x2], dtype=np.float32)] on Python floats. *)
Definition float32_row (xs : list float64) : ndarray float32 :=
  {| shape := [List.length xs];
     item := fun idx =>
       match idx with
       | [c] => float32_of_float64 (nth c xs (S754_zero false))
       | _ => S754_zero false
       end |}.

(** [img op= row] for a one-dimensional [row]: NumPy broadcasts [row] along
    the last axis of [img], and refuses when the broadcast shape is not the
    shape of [img]. *)
Definition inplace_op (op : float32 -> float32 -> float32)
    (img row : ndarray float32) : result (ndarray float32) :=
  match shape row with
  | [n] =>
      if (match shape img with [] => false | _ => true end)
         && ((last (shape img) 0 =? n) || (n =? 1))
      then Ok {| shape := shape img;
                 item := fun idx =>
                   op (item img idx)
                      (item row [if n =? 1 then 0 else last idx 0]) |}
      else Raise (ValueError (Operands_not_broadcast (shape img) (shape row)))
  | _ => Raise (ValueError (Operands_not_broadcast (shape img) (shape row)))
  end%nat.

(** [np.transpose(a, (2, 0, 1))]. *)
Definition np_transpose_201 {A} (a : ndarray A) : result (ndarray A) :=
  match shape a with
  | [d0; d1; d2] =>
      Ok {| shape := [d2; d0; d1];
            item := fun idx =>
              match idx with
              | [k; i; j] => item a [i; j; k]
              | _ => item a idx
              end |}
  | _ => Raise (ValueError Axes_do_not_match)
  end.

(** ** [normalizeMeanVariance] (lines 12-18) *)

Definition triple := (float64 * float64 * float64)%type.

Definition default_mean : triple := (milli 485, milli 456, milli 406).
Definition default_variance : triple := (milli 229, milli 224, milli 225).

Definition times_255 (t : triple) : list float64 :=
  let '(t0, t1, t2) := t in
  [float64_mul t0 (float64_of_Z 255);
   float64_mul t1 (float64_of_Z 255);
   float64_mul t2 (float64_of_Z 255)].

Definition normalizeMeanVariance_with (mean variance : triple)
    (in_img : ndarray Z) : result (ndarray float32) :=
  let img := astype float32_of_Z in_img in
  let? img := inplace_op float32_sub img (float32_row (times_255 mean)) in
  let? img := inplace_op float32_div img (float32_row (times_255 variance)) in
  Ok img.

Definition normalizeMeanVariance : ndarray Z -> result (ndarray float32) :=
  normalizeMeanVariance_with default_mean default_variance.

(** ** Images of the imaging library *)

(** A decoded image: its mode, its size and its samples.  The modes are
    those of the imaging library with integer samples: one band of 1-bit
    ([1]), 8-bit ([L], [P]), 16-bit ([I;16]) or 32-bit ([I]) samples, and two
    ([LA], [PA]), three ([RGB], [YCbCr], [LAB], [HSV]) or four ([RGBA],
    [CMYK], [RGBX]) bands of 8-bit samples.  The mode [F], whose samples are
    floating-point numbers, is left out: the decoded image of the
    specification has an integer channel depth. *)
Inductive pil_mode :=
| mode_L | mode_P | mode_LA | mode_RGB | mode_RGBA | mode_CMYK
| mode_1 | mode_I | mode_I16 | mode_PA
| mode_YCbCr | mode_LAB | mode_HSV | mode_RGBX.

Definition bands (m : pil_mode) : nat :=
  match m with
  | mode_1 | mode_L | mode_P | mode_I | mode_I16 => 1
  | mode_LA | mode_PA => 2
  | mode_RGB | mode_YCbCr | mode_LAB | mode_HSV => 3
  | mode_RGBA | mode_CMYK | mode_RGBX => 4
  end.

(** The element type of [np.array(pil_img)], which NumPy takes from the
    mode. *)
Definition sample_dtype (m : pil_mode) : np_dtype :=
  match m with
  | mode_1 => np_bool_
  | mode_I => np_int32
  | mode_I16 => np_uint16
  | _ => np_uint8
  end.

Record PilImage := mk_PilImage {
  mode : pil_mode;
  size : nat * nat;                      (* (width, height) *)
  getpixel : nat -> nat -> nat -> Z      (* x, y, band *)
}.

(** [np.array(pil_img)]: height by width for a single band, height by width by
    bands otherwise. *)
Definition np_array (im : PilImage) : ndarray Z :=
  let '(w, h) := size im in
  match bands (mode im) with
  | 1 => {| shape := [h; w];
            item := fun idx =>
              match idx with
              | [y; x] => getpixel im x y 0
              | _ => 0%Z
              end |}
  | c => {| shape := [h; w; c];
            item := fun idx =>
              match idx with
              | [y; x; k] => getpixel im x y k
              | _ => 0%Z
              end |}
  end.

(** The element types that [cv2.cvtColor] takes: 8-bit and 16-bit unsigned
    integers and 32-bit floats.  It rejects an array of any other element
    type, such as the booleans of a 1-bit image and the 32-bit integers of
    the mode [I]. *)
Definition cv2_depth (elt : np_dtype) : bool :=
  match elt with
  | np_uint8 | np_uint16 | np_float32 => true
  | _ => false
  end.

(** [cv2.cvtColor(a, cv2.COLOR_GRAY2BGR)] on an array [a] of element type
    [elt]: every pixel of the single channel becomes the triple (B, G, R) of
    that value. *)
Definition cvtColor_GRAY2BGR (elt : np_dtype) (a : ndarray Z)
  : result (ndarray Z) :=
  if negb (cv2_depth elt) then Raise cv2_error else
  match shape a with
  | [h; w] =>
      Ok {| shape := [h; w; 3];
            item := fun idx =>
              match idx with
              | [y; x; _] => item a [y; x]
              | _ => 0%Z
              end |}
  | [h; w; 1] =>
      Ok {| shape := [h; w; 3];
            item := fun idx =>
              match idx with
              | [y; x; _] => item a [y; x; 0]
              | _ => 0%Z
              end |}
  | _ => Raise cv2_error
  end.

(** ** Requests, tensors and responses *)

Definition bytes := list Byte.byte.

(** What an element of the input array can be. *)
Inductive pyobj :=
| PyBytes (b : bytes)
| PyNum (z : Z).

(** The array behind an input tensor: [batch_size] rows of one element. *)
Record batch_array := mk_batch_array {
  dtype : np_dtype;
  rows : list (list pyobj)
}.

(** What the loop appends to the lists of [batch_out]. *)
Inductive pyval :=
| Scale (width_ratio height_ratio : float64)   (* [[w/2240, h/1920]] *)
| ImageArr (a : ndarray Z)
| TensorArr (a : ndarray float32).

(** [np.asarray(out, dtype=d)]: the elements are kept as they were appended,
    next to the element type they are cast to. *)
Record stacked := np_asarray {
  stacked_elems : list pyval;
  stacked_dtype : np_dtype
}.

Record Tensor (D : Type) := mk_Tensor {
  name : string;
  as_numpy : D
}.

Record InferenceRequest := mk_InferenceRequest {
  inputs : list (Tensor batch_array);
  requested_output_names : list string;
  request_id : string
}.

Record InferenceResponse := mk_InferenceResponse {
  output_tensors : list (Tensor stacked)
}.

Definition get_input_tensor_by_name (request : InferenceRequest) (n : string)
  : option (Tensor batch_array) :=
  find (fun t => String.eqb (name t) n) (inputs request).

(** [s in l] on a list of strings. *)
Definition str_in (s : string) (l : list string) : bool :=
  existsb (String.eqb s) l.

(** ** Dictionaries (insertion-ordered) *)

Definition dict (V : Type) := list (string * V).

Fixpoint dict_get {V} (d : dict V) (k : string) : option V :=
  match d with
  | [] => None
  | (k', v) :: d' => if String.eqb k' k then Some v else dict_get d' k
  end.

Fixpoint dict_set {V} (d : dict V) (k : string) (v : V) : dict V :=
  match d with
  | [] => []
  | (k', v') :: d' =>
      if String.eqb k' k then (k', v) :: d' else (k', v') :: dict_set d' k v
  end.

(** [d[k]] *)
Definition dict_item {V} (d : dict V) (k : string) : result V :=
  match dict_get d k with
  | Some v => Ok v
  | None => Raise (KeyError k)
  end.

(** [d[k].append(v)] *)
Definition dict_append {V} (d : dict (list V)) (k : string) (v : V)
  : result (dict (list V)) :=
  let? l := dict_item d k in
  Ok (dict_set d k (l ++ [v])).

(** ** The monad of [execute]: exceptions and the log of decoder calls *)

Inductive event :=
| Image_opened (b : bytes).

Definition trace := list event.

Definition M (A : Type) : Type := trace -> result A * trace.

Definition ret {A} (a : A) : M A := fun t => (Ok a, t).

Definition raise {A} (e : exn) : M A := fun t => (Raise e, t).

Definition bind {A B} (m : M A) (k : A -> M B) : M B :=
  fun t =>
    match m t with
    | (Ok a, t') => k a t'
    | (Raise e, t') => (Raise e, t')
    end.

Definition lift {A} (r : result A) : M A := fun t => (r, t).

Definition emit (ev : event) : M unit := fun t => (Ok tt, t ++ [ev]).

Notation "x <- c1 ;; c2" := (bind c1 (fun x => c2))
  (at level 61, c1 at next level, right associativity).
Notation "' pat <- c1 ;; c2" := (bind c1 (fun x => match x with pat => c2 end))
  (at level 61, pat pattern, c1 at next level, right associativity).

(** [for x in xs: s = body(x, s)] *)
Fixpoint for_each {A S} (xs : list A) (body : A -> S -> M S) (s : S) : M S :=
  match xs with
  | [] => ret s
  | x :: xs' => s' <- body x s ;; for_each xs' body s'
  end.

(** [[f(x) for x in xs]] *)
Fixpoint for_list {A B} (xs : list A) (f : A -> M B) : M (list B) :=
  match xs with
  | [] => ret []
  | x :: xs' => b <- f x ;; bs <- for_list xs' f ;; ret (b :: bs)
  end.

(** ** [TritonPythonModel] *)

(** [self.output_names], set by [__init__] (lines 23-27). *)
Definition output_names : dict string :=
  [("output", "output"); ("image", "image"); ("scale", "scale")]%string.

(** The model after [initialize]: lines 48-49 store an element type for every
    key of [output_names]. *)
Record TritonPythonModel := mk_TritonPythonModel {
  output_dtypes : string -> np_dtype
}.

Definition newsize : nat * nat := (2240, 1920).

Section Execute.

(** The image library: [decode b] is the image that
    [Image.open(io.BytesIO(b))] gives and [np.array] loads, [None] when the
    buffer is not an image; [resample im sz] is the pixel function of
    [im.resize(sz)].  The library reads the samples when [np.array] first
    asks for them (line 83): a buffer that line 82 opens and line 83 cannot
    load is undecodable as well, and its exception, raised before line 84,
    is the one of [Image_open] here. *)
Variable decode : bytes -> option PilImage.
Variable resample : PilImage -> nat * nat -> nat -> nat -> nat -> Z.

Definition Image_open (o : pyobj) : M PilImage :=
  match o with
  | PyBytes b =>
      _ <- emit (Image_opened b) ;;
      match decode b with
      | Some im => ret im
      | None => raise UnidentifiedImageError
      end
  | PyNum _ => raise TypeError
  end.

Definition resize (im : PilImage) (sz : nat * nat) : PilImage :=
  {| mode := mode im; size := sz; getpixel := resample im sz |}.

(** Lines 85-92: the resized image that is emitted and the tensor computed
    from it. *)
Definition resize_and_normalize (pil_img : PilImage)
  : result (ndarray Z * ndarray float32) :=
  let resized_image := np_array (resize pil_img newsize) in
  if (ndim resized_image =? 3)%nat then
    let? n := normalizeMeanVariance resized_image in
    let? image := np_transpose_201 n in
    Ok (resized_image, image)
  else if (ndim (np_array pil_img) =? 2)%nat then
    let? resized_image :=
      cvtColor_GRAY2BGR (sample_dtype (mode (resize pil_img newsize)))
                        resized_image in
    let? n := normalizeMeanVariance resized_image in
    let? image := np_transpose_201 n in
    Ok (resized_image, image)
  else
    Raise (ValueError (Unsupported_channels (ndim (np_array pil_img)))).

(** Line 84: [[w/2240, h/1920]]. *)
Definition scale_pair (w h : nat) : pyval :=
  Scale (py_truediv (Z.of_nat w) 2240) (py_truediv (Z.of_nat h) 1920).

(** The body of the loop over the batch (lines 82-94). *)
Definition loop_body (img : list pyobj) (batch_out : dict (list pyval))
  : M (dict (list pyval)) :=
  img0 <- lift (match nth_error img 0 with
                | Some o => Ok o
                | None => Raise IndexError
                end) ;;
  pil_img <- Image_open img0 ;;
  '(h, w) <- lift (match firstn 2 (shape (np_array pil_img)) with
                   | [h; w] => Ok (h, w)
                   | _ => Raise (ValueError Not_enough_values_to_unpack)
                   end) ;;
  batch_out <- lift (dict_append batch_out "scale" (scale_pair w h)) ;;
  '(resized_image, image) <- lift (resize_and_normalize pil_img) ;;
  batch_out <- lift (dict_append batch_out "image" (ImageArr resized_image)) ;;
  batch_out <- lift (dict_append batch_out "output" (TensorArr image)) ;;
  ret batch_out.

Variable self : TritonPythonModel.

Definition input_name : string := "input".
Definition output_name : string := "output".

(** The body of the loop over the requests (lines 61-104). *)
Definition execute_request (request : InferenceRequest) : M InferenceResponse :=
  match get_input_tensor_by_name request input_name with
  | None =>
      raise (ValueError (Input_tensor_not_found input_name (request_id request)))
  | Some batch_in_tensor =>
      if negb (str_in output_name (requested_output_names request)) then
        raise (ValueError (Output_not_requested output_name
                             (requested_output_names request)))
      else
        let batch_in := as_numpy batch_in_tensor in
        if negb (is_np_object_ (dtype batch_in)) then
          raise (ValueError (Input_datatype_not_object (dtype batch_in)))
        else
          let batch_out : dict (list pyval) :=
            map (fun kn => (fst kn, []))
                (filter (fun kn => str_in (snd kn) (requested_output_names request))
                        output_names) in
          batch_out <- for_each (rows batch_in) loop_body batch_out ;;
          output_tensors <-
            lift (result_map
                    (fun kout =>
                       let? n := dict_item output_names (fst kout) in
                       Ok (mk_Tensor n (np_asarray (snd kout)
                                          (output_dtypes self (fst kout)))))
                    batch_out) ;;
          ret (mk_InferenceResponse output_tensors)
  end.

(** [execute] (lines 51-106). *)
Definition execute (inference_requests : list InferenceRequest)
  : M (list InferenceResponse) :=
  for_list inference_requests execute_request.

(** *** Vocabulary of the statements *)

(** One image of the batch that goes through the loop body without an
    exception: its buffer, the decoded image, the resized image that is
    emitted and the tensor. *)
Record processed := mk_processed {
  p_blob : bytes;
  p_pil : PilImage;
  p_resized : ndarray Z;
  p_tensor : ndarray float32
}.

Definition processes (img : list pyobj) (p : processed) : Prop :=
  nth_error img 0 = Some (PyBytes (p_blob p)) /\
  decode (p_blob p) = Some (p_pil p) /\
  resize_and_normalize (p_pil p) = Ok (p_resized p, p_tensor p).

(** The scale pair of a decoded image, from its size (width, height). *)
Definition scale_of (im : PilImage) : pyval :=
  scale_pair (fst (size im)) (snd (size im)).

(** A row of the batch whose buffer the decoder rejects. *)
Definition undecodable (img : list pyobj) : Prop :=
  exists b, nth_error img 0 = Some (PyBytes b) /\ decode b = None.

End Execute.

(** All three outputs are requested. *)
Definition requests_all (request : InferenceRequest) : Prop :=
  str_in "output" (requested_output_names request) = true /\
  str_in "image" (requested_output_names request) = true /\
  str_in "scale" (requested_output_names request) = true.

(** The request carries the input tensor [t], an object array. *)
Definition has_blob_input (request : InferenceRequest) (t : Tensor batch_array)
  : Prop :=
  get_input_tensor_by_name request "input" = Some t /\
  dtype (as_numpy t) = np_object_.

(** ** A small codec and resampler, for closed examples

    The statements below hold for every decoder and every resampler.  To run
    the model on concrete requests, this module supplies an uncompressed image
    format and nearest-neighbour resampling. *)
Module Fixture.

Definition mode_of_tag (t : nat) : option pil_mode :=
  match t with
  | 1 => Some mode_L
  | 2 => Some mode_LA
  | 3 => Some mode_RGB
  | 4 => Some mode_RGBA
  | 5 => Some mode_1
  | 6 => Some mode_I
  | 7 => Some mode_I16
  | _ => None
  end.

(** Two layouts.  [R tag w h data]: [w * h * bands] samples, row by row,
    bands interleaved.  [S tag w1 w0 h1 h0 colour]: an image of one colour,
    of width [256 * w1 + w0] and height [256 * h1 + h0].  Anything else is
    not an image. *)
Definition decode (b : bytes) : option PilImage :=
  match map Byte.to_nat b with
  | 82 :: tag :: w :: h :: data =>
      match mode_of_tag tag with
      | Some m =>
          if (List.length data =? w * h * bands m)%nat then
            Some {| mode := m; size := (w, h);
                    getpixel := fun x y k =>
                      Z.of_nat (nth ((y * w + x) * bands m + k) data 0%nat) |}
          else None
      | None => None
      end
  | 83 :: tag :: w1 :: w0 :: h1 :: h0 :: colour =>
      match mode_of_tag tag with
      | Some m =>
          if (List.length colour =? bands m)%nat then
            Some {| mode := m; size := (256 * w1 + w0, 256 * h1 + h0)%nat;
                    getpixel := fun _ _ k => Z.of_nat (nth k colour 0%nat) |}
          else None
      | None => None
      end
  | _ => None
  end.

Definition resample (im : PilImage) (sz : nat * nat) (x y k : nat) : Z :=
  getpixel im (x * fst (size im) / fst sz) (y * snd (size im) / snd sz) k.

Definition self : TritonPythonModel :=
  {| output_dtypes := fun k =>
       if String.eqb k "image" then np_uint8 else np_float32 |}.

Definition input_of (blobs : list bytes) : Tensor batch_array :=
  mk_Tensor "input"
    (mk_batch_array np_object_ (map (fun b => [PyBytes b]) blobs)).

Definition request_of (blobs : list bytes) (requested : list string)
  : InferenceRequest :=
  {| inputs := [input_of blobs];
     requested_output_names := requested;
     request_id := "1" |}.

Import Byte.

(** A 2 by 1 grey image, a 1 by 1 RGB image, a 1 by 1 RGBA image, a
    4480 by 3840 grey image, and a buffer that is not an image. *)
Definition grey_2x1 : bytes := [x52; x01; x02; x01; x0a; xc8].
Definition rgb_1x1 : bytes := [x52; x03; x01; x01; xff; x80; x00].
Definition rgba_1x1 : bytes := [x52; x04; x01; x01; xff; x80; x00; xff].
Definition grey_4480x3840 : bytes := [x53; x01; x11; x80; x0f; x00; x7f].
Definition corrupt : bytes := [x00; x01; x02].

(** A 2 by 1 image of 1-bit samples, one of 32-bit integers and one of
    16-bit samples. *)
Definition bilevel_2x1 : bytes := [x52; x05; x02; x01; x00; x01].
Definition int32_2x1 : bytes := [x52; x06; x02; x01; x0a; xc8].
Definition grey16_2x1 : bytes := [x52; x07; x02; x01; x0a; xc8].

Definition all_outputs : list string := ["output"; "image"; "scale"]%string.

(** A request without the input tensor, and one whose input tensor is
    numeric. *)
Definition request_without_input (requested : list string)
  : InferenceRequest :=
  {| inputs := []; requested_output_names := requested; request_id := "2" |}.

Definition numeric_request (requested : list string) : InferenceRequest :=
  {| inputs := [mk_Tensor "input" (mk_batch_array np_float32 [[PyNum 1]])];
     requested_output_names := requested;
     request_id := "3" |}.

End Fixture.

(** ** [initialize] (lines 29-49) *)

(** A parsed JSON document, as [json.loads] gives it. *)
#[local] Unset Elimination Schemes.
Inductive json :=
| JNull
| JBool (b : bool)
| JNumber (z : Z)
| JString (s : string)
| JArray (items : list json)
| JObject (members : list (string * json)).
#[local] Set Elimination Schemes.

(** The [ValueError]s of [initialize], by the place that raises them; each
    carries the name of the output. *)
Inductive config_error :=
| Output_not_defined (output : string)       (* line 36 *)
| Dims_not_defined (output : string)         (* line 39 *)
| Name_not_defined (output : string)         (* line 42 *)
| Data_type_not_defined (output : string).   (* line 45 *)

Inductive init_exn :=
| Config_ValueError (why : config_error)
| JSONDecodeError                  (* [json.loads] rejects the text *)
| Raised (e : exn).                (* any other exception *)

Inductive init_result (A : Type) :=
| Initialized (a : A)
| Aborted (e : init_exn).
Arguments Aborted {A} e.

Definition init_bind {A B} (r : init_result A) (k : A -> init_result B)
  : init_result B :=
  match r with
  | Initialized a => k a
  | Aborted e => Aborted e
  end.

Notation "'let!' x ':=' r 'in' k" := (init_bind r (fun x => k))
  (at level 10, x pattern, r at level 100, k at level 200).

Fixpoint init_map {A B} (f : A -> init_result B) (l : list A)
  : init_result (list B) :=
  match l with
  | [] => Initialized []
  | a :: l' =>
      let! b := f a in
      let! bs := init_map f l' in
      Initialized (b :: bs)
  end.

(** [k in d] *)
Definition key_in {V} (k : string) (d : dict V) : bool :=
  match dict_get d k with
  | Some _ => true
  | None => false
  end.

(** [d[k]] inside [initialize] *)
Definition init_item {V} (d : dict V) (k : string) : init_result V :=
  match dict_get d k with
  | Some v => Initialized v
  | None => Aborted (Raised (KeyError k))
  end.

Section Initialize.

(** The functions of the standard library and of the serving host's utility
    module that [initialize] calls: the JSON parser, the lookup of an output's
    declaration by name in the parsed configuration ([None] when there is
    none), and the table from the host's type names to element types. *)
Variable json_loads : string -> init_result json.
Variable get_output_config_by_name :
  json -> string -> init_result (option (dict json)).
Variable triton_string_to_numpy : json -> init_result np_dtype.

(** The body of the loop of lines 34-46; the name in the message is
    [self.output_names[k]]. *)
Definition check_output_config (kcfg : string * option (dict json))
  : init_result unit :=
  let '(k, cfg) := kcfg in
  match cfg with
  | None =>
      let! n := init_item output_names k in
      Aborted (Config_ValueError (Output_not_defined n))
  | Some c =>
      if negb (key_in "dims" c) then
        let! n := init_item output_names k in
        Aborted (Config_ValueError (Dims_not_defined n))
      else if negb (key_in "name" c) then
        let! n := init_item output_names k in
        Aborted (Config_ValueError (Name_not_defined n))
      else if negb (key_in "data_type" c) then
        let! n := init_item output_names k in
        Aborted (Config_ValueError (Data_type_not_defined n))
      else Initialized tt
  end.

(** [initialize]; the result is [self.output_dtypes]. *)
Definition initialize (args : dict string) : init_result (dict np_dtype) :=
  let! text := init_item args "model_config" in
  let! model_config := json_loads text in
  let! output_configs :=
    init_map (fun kn : string * string =>
                let! cfg := get_output_config_by_name model_config (snd kn) in
                Initialized (fst kn, cfg))
             output_names in
  let! _ := init_map check_output_config output_configs in
  let! output_dtypes :=
    init_map (fun kcfg : string * option (dict json) =>
                match snd kcfg with
                | Some c =>
                    let! v := init_item c "data_type" in
                    let! ty := triton_string_to_numpy v in
                    Initialized (fst kcfg, ty)
                | None => Aborted (Raised TypeError)
                end)
             output_configs in
  Initialized output_dtypes.

(** *** Vocabulary of the statements *)

(** A declaration that passes the checks of lines 38-46. *)
Definition complete (c : dict json) : Prop :=
  key_in "dims" c = true /\ key_in "name" c = true /\
  key_in "data_type" c = true.

(** The output [n] is declared completely in the parsed configuration, and
    its data type resolves to [ty]. *)
Definition declares (model_config : json) (n : string) (ty : np_dtype)
  : Prop :=
  exists c v,
    get_output_config_by_name model_config n = Initialized (Some c) /\
    complete c /\
    dict_get c "data_type" = Some v /\
    triton_string_to_numpy v = Initialized ty.

End Initialize.

(** The model object that [execute] sees after [initialize] has stored
    [output_dtypes]; [execute] looks up the keys of [output_names] only. *)
Definition model_with (output_dtypes : dict np_dtype) : TritonPythonModel :=
  {| output_dtypes := fun k =>
       match dict_get output_dtypes k with
       | Some ty => ty
       | None => np_object_
       end |}.

(** ** Vocabulary of the further statements about [execute] *)

(** The decoder call that the loop body makes for a row: one, when the first
    element of the row is a byte string. *)
Definition opened_by (img : list pyobj) : list event :=
  match nth_error img 0 with
  | Some (PyBytes b) => [Image_opened b]
  | _ => []
  end.

(** An image that the per-image step takes: one band of samples that
    [cv2.cvtColor] accepts, or three bands. *)
Definition expandable (im : PilImage) : Prop :=
  bands (mode im) = 1%nat /\ cv2_depth (sample_dtype (mode im)) = true.

Definition accepted (im : PilImage) : Prop :=
  expandable im \/ bands (mode im) = 3%nat.

(** A row that holds a buffer which decodes to an accepted image. *)
Definition serviceable (decode : bytes -> option PilImage) (img : list pyobj)
  : Prop :=
  exists b im,
    nth_error img 0 = Some (PyBytes b) /\ decode b = Some im /\ accepted im.

(** The response to a request with an empty batch. *)
Definition empty_response (self : TritonPythonModel) (requested : list string)
  : InferenceResponse :=
  {| output_tensors :=
       map (fun kn : string * string =>
              mk_Tensor (snd kn) (np_asarray [] (output_dtypes self (fst kn))))
           (filter (fun kn => str_in (snd kn) requested) output_names) |}.

(** The response to a request for the three outputs whose rows are all
    processed. *)
Definition full_response (self : TritonPythonModel) (ps : list processed)
  : InferenceResponse :=
  {| output_tensors :=
       [mk_Tensor "output"
          (np_asarray (map (fun p => TensorArr (p_tensor p)) ps)
                      (output_dtypes self "output"));
        mk_Tensor "image"
          (np_asarray (map (fun p => ImageArr (p_resized p)) ps)
                      (output_dtypes self "image"));
        mk_Tensor "scale"
          (np_asarray (map (fun p => scale_of (p_pil p)) ps)
                      (output_dtypes self "scale"))] |}.

(** A computation that only appends to the log of decoder calls, and whose
    outcome does not depend on the log it starts with. *)
Definition log_extending {A} (m : M A) : Prop :=
  forall tr, m tr = (fst (m []), tr ++ snd (m [])).

Definition is_finite (x : spec_float) : bool :=
  match x with
  | S754_zero _ | S754_finite _ _ _ => true
  | _ => false
  end.

(** ** Library functions for closed examples of [initialize]

    The lookup follows the host's utility module: the first member of the
    array ["output"] whose ["name"] is the wanted one. *)
Module Fixture_config.

Fixpoint find_output (outputs : list json) (n : string)
  : init_result (option (dict json)) :=
  match outputs with
  | [] => Initialized None
  | JObject c :: rest =>
      match dict_get c "name" with
      | Some (JString s) =>
          if String.eqb s n then Initialized (Some c) else find_output rest n
      | Some _ => find_output rest n
      | None => Aborted (Raised (KeyError "name"))
      end
  | _ :: rest => Aborted (Raised TypeError)
  end.

Definition get_output_config_by_name (model_config : json) (n : string)
  : init_result (option (dict json)) :=
  match model_config with
  | JObject members =>
      match dict_get members "output" with
      | Some (JArray outputs) => find_output outputs n
      | Some _ => Aborted (Raised TypeError)
      | None => Initialized None
      end
  | _ => Aborted (Raised TypeError)
  end.

Definition triton_string_to_numpy (v : json) : init_result np_dtype :=
  match v with
  | JString s =>
      if String.eqb s "TYPE_FP32" then Initialized np_float32
      else if String.eqb s "TYPE_FP64" then Initialized np_float64
      else if String.eqb s "TYPE_UINT8" then Initialized np_uint8
      else if String.eqb s "TYPE_STRING" then Initialized np_object_
      else Aborted (Raised (KeyError s))
  | _ => Aborted (Raised TypeError)
  end.

Definition output_decl (n ty : string) (dims : list Z) : json :=
  JObject [("name", JString n); ("data_type", JString ty);
           ("dims", JArray (map JNumber dims))]%string.

(** The configuration of the model, and one that declares no data type for
    ["scale"] and an unknown one for ["output"]. *)
Definition good_config : json :=
  JObject [("name", JString "pre");
           ("output",
            JArray [output_decl "output" "TYPE_FP32" [3; 1920; 2240];
                    output_decl "image" "TYPE_UINT8" [1920; 2240; 3];
                    output_decl "scale" "TYPE_FP32" [2]])]%string%Z.

Definition bad_config : json :=
  JObject [("output",
            JArray [output_decl "output" "TYPE_COMPLEX" [3; 1920; 2240];
                    output_decl "image" "TYPE_UINT8" [1920; 2240; 3];
                    JObject [("name", JString "scale");
                             ("dims", JArray [JNumber 2])]])]%string%Z.

(** A parser that knows two texts. *)
Definition json_loads (text : string) : init_result json :=
  if String.eqb text "good" then Initialized good_config
  else if String.eqb text "bad" then Initialized bad_config
  else Aborted JSONDecodeError.

End Fixture_config.

(** * Properties *)

Arguments float64_of_Z : simpl never.
Arguments float64_mul : simpl never.
Arguments float64_div : simpl never.
Arguments float32_of_Z : simpl never.
Arguments float32_sub : simpl never.
Arguments float32_div : simpl never.
Arguments float32_of_float64 : simpl never.
Arguments milli : simpl never.
Arguments py_truediv : simpl never.

(** ** Arrays and normalisation *)

(** The constant that channel [c] is shifted by, and the one it is divided
    by: [mean[c] * 255.0] and [variance[c] * 255.0], computed in binary64 and
    stored as [np.float32]. *)
Definition mean_255 (c : nat) : float32 :=
  float32_of_float64
    (float64_mul (nth c [milli 485; milli 456; milli 406] (S754_zero false))
                 (float64_of_Z 255)).

Definition variance_255 (c : nat) : float32 :=
  float32_of_float64
    (float64_mul (nth c [milli 229; milli 224; milli 225] (S754_zero false))
                 (float64_of_Z 255)).

(** The value that a sample [p] of channel [c] is mapped to. *)
Definition normalized (c : nat) (p : Z) : float32 :=
  float32_div (float32_sub (float32_of_Z p) (mean_255 c)) (variance_255 c).

(** The values of an 8-bit sample. *)
Definition pixel_values : list Z := map Z.of_nat (seq 0 256).

(** Bounds of the normalised values: -2.12 and 2.65, as binary32. *)
Definition normalized_min : float32 := float32_of_float64 (py_truediv (-212) 100).
Definition normalized_max : float32 := float32_of_float64 (py_truediv 265 100).

(** Every element of [l] is related to every later one. *)
Fixpoint pairwise {A} (r : A -> A -> bool) (l : list A) : bool :=
  match l with
  | [] => true
  | x :: l' => forallb (r x) l' && pairwise r l'
  end.

Lemma np_array_shape (im : PilImage) :
  shape (np_array im) =
  if (bands (mode im) =? 1)%nat
  then [snd (size im); fst (size im)]
  else [snd (size im); fst (size im); bands (mode im)].
Proof.
  destruct im as [m [w h] g]; destruct m; reflexivity.
Qed.

Lemma np_array_shape_firstn (im : PilImage) :
  firstn 2 (shape (np_array im)) = [snd (size im); fst (size im)].
Proof.
  rewrite np_array_shape; destruct (bands (mode im) =? 1)%nat; reflexivity.
Qed.

Lemma float32_row_times_255_shape (t : triple) :
  shape (float32_row (times_255 t)) = [3%nat].
Proof. destruct t as [[t0 t1] t2]; reflexivity. Qed.

Lemma float32_row_mean (c : nat) :
  (c < 3)%nat -> item (float32_row (times_255 default_mean)) [c] = mean_255 c.
Proof.
  intros Hc; destruct c as [|[|[|c]]]; try reflexivity; lia.
Qed.

Lemma float32_row_variance (c : nat) :
  (c < 3)%nat ->
  item (float32_row (times_255 default_variance)) [c] = variance_255 c.
Proof.
  intros Hc; destruct c as [|[|[|c]]]; try reflexivity; lia.
Qed.

(** The in-place operation with a row of three on an array whose last axis
    has length three. *)
Lemma inplace_op_rank3 op (img row : ndarray float32) (h w : nat) :
  shape img = [h; w; 3%nat] -> shape row = [3%nat] ->
  inplace_op op img row =
  Ok {| shape := [h; w; 3%nat];
        item := fun idx => op (item img idx) (item row [last idx 0%nat]) |}.
Proof.
  intros Hi Hr; unfold inplace_op; rewrite Hr, Hi; reflexivity.
Qed.

(** On an array whose last axis does not have length three the operation
    raises. *)
Lemma inplace_op_mismatch op (img row : ndarray float32) (h w c : nat) :
  shape img = [h; w; c] -> shape row = [3%nat] -> c <> 3%nat ->
  inplace_op op img row =
  Raise (ValueError (Operands_not_broadcast [h; w; c] [3%nat])).
Proof.
  intros Hi Hr Hc; unfold inplace_op; rewrite Hr, Hi.
  cbn [last andb].
  destruct (Nat.eqb_spec c 3) as [E|_]; [contradiction|reflexivity].
Qed.

(** What [normalizeMeanVariance] followed by the transposition computes on a
    height by width by 3 array. *)
Lemma normalize_then_transpose (a : ndarray Z) (h w : nat) :
  shape a = [h; w; 3%nat] ->
  exists n t,
    normalizeMeanVariance a = Ok n /\
    np_transpose_201 n = Ok t /\
    shape n = [h; w; 3%nat] /\
    shape t = [3%nat; h; w] /\
    forall c y x, (c < 3)%nat ->
      item n [y; x; c] =
        float32_div (float32_sub (float32_of_Z (item a [y; x; c])) (mean_255 c))
                    (variance_255 c) /\
      item t [c; y; x] = item n [y; x; c].
Proof.
  intros Ha.
  unfold normalizeMeanVariance, normalizeMeanVariance_with.
  rewrite (@inplace_op_rank3 _ _ _ h w)
    by (try apply float32_row_times_255_shape; exact Ha).
  cbn [result_bind].
  rewrite (@inplace_op_rank3 _ _ _ h w)
    by (try apply float32_row_times_255_shape; reflexivity).
  cbn [result_bind].
  eexists; eexists; split; [reflexivity|].
  split; [reflexivity|].
  split; [reflexivity|]. split; [reflexivity|].
  intros c y x Hc; cbn [item astype last].
  rewrite float32_row_mean, float32_row_variance by exact Hc.
  split; reflexivity.
Qed.

Lemma normalize_mismatch (a : ndarray Z) (h w c : nat) :
  shape a = [h; w; c] -> c <> 3%nat ->
  normalizeMeanVariance a =
  Raise (ValueError (Operands_not_broadcast [h; w; c] [3%nat])).
Proof.
  intros Ha Hc.
  unfold normalizeMeanVariance, normalizeMeanVariance_with.
  rewrite (@inplace_op_mismatch _ _ _ h w c)
    by (try apply float32_row_times_255_shape; assumption).
  reflexivity.
Qed.

(** ** The per-image step *)

Section Image_step.

Variable resample : PilImage -> nat * nat -> nat -> nat -> nat -> Z.

Lemma ndim_np_array (im : PilImage) :
  ndim (np_array im) = if (bands (mode im) =? 1)%nat then 2%nat else 3%nat.
Proof.
  unfold ndim; rewrite np_array_shape.
  destruct (bands (mode im) =? 1)%nat; reflexivity.
Qed.

Lemma resized_shape (im : PilImage) :
  shape (np_array (resize resample im newsize)) =
  if (bands (mode im) =? 1)%nat
  then [1920; 2240]%nat
  else [1920; 2240; bands (mode im)]%nat.
Proof. rewrite np_array_shape; reflexivity. Qed.

(** A decoded array with three channels takes the first branch. *)
Lemma resize_and_normalize_colour (im : PilImage) :
  bands (mode im) = 3%nat ->
  exists n t,
    resize_and_normalize resample im =
      Ok (np_array (resize resample im newsize), t) /\
    normalizeMeanVariance (np_array (resize resample im newsize)) = Ok n /\
    np_transpose_201 n = Ok t /\
    shape t = [3; 1920; 2240]%nat.
Proof.
  intros Hb.
  assert (Hs : shape (np_array (resize resample im newsize))
               = [1920; 2240; 3]%nat)
    by (rewrite resized_shape, Hb; reflexivity).
  destruct (normalize_then_transpose _ Hs) as (n & t & Hn & Ht & _ & Hst & _).
  exists n, t; repeat split; try assumption.
  unfold resize_and_normalize, ndim; rewrite Hs.
  cbn [List.length Nat.eqb]; rewrite Hn; cbn [result_bind].
  rewrite Ht; reflexivity.
Qed.

(** A two-dimensional decoded array takes the second branch; the conversion
    needs samples of a type that [cv2.cvtColor] accepts. *)
Lemma resize_and_normalize_grey (im : PilImage) :
  expandable im ->
  exists r n t,
    resize_and_normalize resample im = Ok (r, t) /\
    cvtColor_GRAY2BGR (sample_dtype (mode im))
      (np_array (resize resample im newsize)) = Ok r /\
    shape r = [1920; 2240; 3]%nat /\
    (forall y x c,
        item r [y; x; c] = item (np_array (resize resample im newsize)) [y; x]) /\
    normalizeMeanVariance r = Ok n /\
    np_transpose_201 n = Ok t /\
    shape t = [3; 1920; 2240]%nat.
Proof.
  intros (Hb & Hdepth).
  assert (Hs : shape (np_array (resize resample im newsize))
               = [1920; 2240]%nat)
    by (rewrite resized_shape, Hb; reflexivity).
  assert (Hc : cvtColor_GRAY2BGR (sample_dtype (mode im))
                 (np_array (resize resample im newsize)) =
               Ok {| shape := [1920; 2240; 3]%nat;
                     item := fun idx =>
                       match idx with
                       | [y; x; _] =>
                           item (np_array (resize resample im newsize)) [y; x]
                       | _ => 0%Z
                       end |})
    by (unfold cvtColor_GRAY2BGR; rewrite Hdepth, Hs; reflexivity).
  match type of Hc with _ = Ok ?a => set (r := a) in * end.
  assert (Hr : shape r = [1920; 2240; 3]%nat) by reflexivity.
  destruct (normalize_then_transpose r Hr) as (n & t & Hn & Ht & _ & Hst & _).
  exists r, n, t; repeat split; try assumption.
  unfold resize_and_normalize.
  rewrite (ndim_np_array im), Hb; unfold ndim; rewrite Hs.
  cbn [List.length Nat.eqb resize mode]; rewrite Hc; cbn [result_bind].
  rewrite Hn; cbn [result_bind]; rewrite Ht; reflexivity.
Qed.

(** A two-dimensional decoded array of samples that [cv2.cvtColor] does not
    take: the conversion of line 89 raises. *)
Lemma resize_and_normalize_bad_depth (im : PilImage) :
  bands (mode im) = 1%nat ->
  cv2_depth (sample_dtype (mode im)) = false ->
  resize_and_normalize resample im = Raise cv2_error.
Proof.
  intros Hb Hdepth.
  assert (Hs : shape (np_array (resize resample im newsize))
               = [1920; 2240]%nat)
    by (rewrite resized_shape, Hb; reflexivity).
  unfold resize_and_normalize.
  rewrite (ndim_np_array im), Hb; unfold ndim; rewrite Hs.
  cbn [List.length Nat.eqb resize mode].
  unfold cvtColor_GRAY2BGR; rewrite Hdepth; reflexivity.
Qed.

(** Any other number of channels: the subtraction of the row of three
    constants raises. *)
Lemma resize_and_normalize_other (im : PilImage) :
  bands (mode im) <> 1%nat -> bands (mode im) <> 3%nat ->
  resize_and_normalize resample im =
  Raise (ValueError
           (Operands_not_broadcast [1920; 2240; bands (mode im)]%nat [3%nat])).
Proof.
  intros H1 H3.
  assert (Hs : shape (np_array (resize resample im newsize))
               = [1920; 2240; bands (mode im)]%nat).
  { rewrite resized_shape.
    destruct (Nat.eqb_spec (bands (mode im)) 1); [contradiction|reflexivity]. }
  unfold resize_and_normalize, ndim; rewrite Hs.
  cbn [List.length Nat.eqb].
  rewrite (normalize_mismatch _ Hs H3); reflexivity.
Qed.

(** The three outcomes of the per-image step. *)
Lemma accepted_dec (im : PilImage) :
  accepted im \/
  (bands (mode im) = 1%nat /\ cv2_depth (sample_dtype (mode im)) = false) \/
  (bands (mode im) <> 1%nat /\ bands (mode im) <> 3%nat).
Proof.
  unfold accepted, expandable.
  destruct (Nat.eq_dec (bands (mode im)) 1) as [E1|N1].
  - destruct (cv2_depth (sample_dtype (mode im))); auto.
  - destruct (Nat.eq_dec (bands (mode im)) 3) as [E3|N3]; auto.
Qed.

Lemma accepted_iff (im : PilImage) :
  (exists r t, resize_and_normalize resample im = Ok (r, t)) <-> accepted im.
Proof.
  split.
  - intros (r & t & H).
    destruct (accepted_dec im) as [Ha|[(Hb & Hd)|(N1 & N3)]]; [exact Ha| |].
    + rewrite (resize_and_normalize_bad_depth im Hb Hd) in H; discriminate.
    + rewrite (resize_and_normalize_other im N1 N3) in H; discriminate.
  - intros [He|H3].
    + destruct (resize_and_normalize_grey He) as (r & n & t & Hr & _); eauto.
    + destruct (resize_and_normalize_colour im H3) as (n & t & Hr & _); eauto.
Qed.

End Image_step.

(** ** The loop over the batch *)

Lemma for_each_app {A S} (xs ys : list A) (body : A -> S -> M S) (s : S)
    (tr : trace) :
  for_each (xs ++ ys) body s tr =
  (s' <- for_each xs body s ;; for_each ys body s') tr.
Proof.
  revert s tr; induction xs as [|x xs IH]; intros s tr; cbn [for_each app].
  - reflexivity.
  - unfold bind; destruct (body x s tr) as [[s1|e] tr1].
    + rewrite IH; reflexivity.
    + reflexivity.
Qed.

(** [x in l] of Python is membership in the list. *)
Lemma str_in_In (s : string) (l : list string) :
  str_in s l = true <-> In s l.
Proof.
  unfold str_in; rewrite existsb_exists; split.
  - intros (x & Hx & E); apply String.eqb_eq in E; subst; exact Hx.
  - intros H; exists s; split; [exact H|apply String.eqb_refl].
Qed.

Section Batch.

Variable decode : bytes -> option PilImage.
Variable resample : PilImage -> nat * nat -> nat -> nat -> nat -> Z.

Local Abbreviation body := (loop_body decode resample).
Local Abbreviation good := (processes decode resample).

(** The three lists of a full [batch_out]. *)
Local Abbreviation full lo li ls :=
  [("output"%string, lo); ("image"%string, li); ("scale"%string, ls)].

Lemma loop_body_full (img : list pyobj) (p : processed)
    (lo li ls : list pyval) (tr : trace) :
  good img p ->
  body img (full lo li ls) tr =
  (Ok (full (lo ++ [TensorArr (p_tensor p)])
            (li ++ [ImageArr (p_resized p)])
            (ls ++ [scale_of (p_pil p)])),
   tr ++ [Image_opened (p_blob p)]).
Proof.
  intros (H0 & Hd & Hn).
  unfold loop_body, bind, lift; rewrite H0.
  unfold Image_open, bind, emit; rewrite Hd; unfold ret.
  rewrite np_array_shape_firstn, Hn; reflexivity.
Qed.

Lemma for_each_full (imgs : list (list pyobj)) (ps : list processed) :
  Forall2 good imgs ps ->
  forall lo li ls tr,
    for_each imgs body (full lo li ls) tr =
    (Ok (full (lo ++ map (fun p => TensorArr (p_tensor p)) ps)
              (li ++ map (fun p => ImageArr (p_resized p)) ps)
              (ls ++ map (fun p => scale_of (p_pil p)) ps)),
     tr ++ map (fun p => Image_opened (p_blob p)) ps).
Proof.
  induction 1 as [|img p imgs ps Hp _ IH]; intros lo li ls tr.
  - cbn [for_each map]; unfold ret; rewrite !app_nil_r; reflexivity.
  - cbn [for_each map]; unfold bind; rewrite (loop_body_full _ _ _ _ Hp).
    rewrite IH, <- !app_assoc; reflexivity.
Qed.

(** A row whose buffer is rejected stops the loop body at the decoder,
    whatever [batch_out] holds. *)
Lemma loop_body_undecodable (img : list pyobj) (b : bytes)
    (d : dict (list pyval)) (tr : trace) :
  nth_error img 0 = Some (PyBytes b) -> decode b = None ->
  body img d tr = (Raise UnidentifiedImageError, tr ++ [Image_opened b]).
Proof.
  intros H0 Hd.
  unfold loop_body, bind, lift; rewrite H0.
  unfold Image_open, bind, emit; rewrite Hd; reflexivity.
Qed.

Lemma for_each_undecodable (imgs : list (list pyobj)) :
  Exists (undecodable decode) imgs ->
  forall d tr, exists e tr', for_each imgs body d tr = (Raise e, tr').
Proof.
  induction 1 as [img imgs (b & H0 & Hd)|img imgs _ IH]; intros d tr;
    cbn [for_each]; unfold bind.
  - rewrite (loop_body_undecodable _ _ _ H0 Hd); eauto.
  - destruct (body img d tr) as [[d'|e] tr1]; [apply IH|eauto].
Qed.

(** Without the key ["scale"] in [batch_out], the first decodable image
    stops the loop with a [KeyError]. *)
Lemma loop_body_no_scale (img : list pyobj) (b : bytes) (im : PilImage)
    (d : dict (list pyval)) (tr : trace) :
  nth_error img 0 = Some (PyBytes b) -> decode b = Some im ->
  dict_get d "scale" = None ->
  body img d tr = (Raise (KeyError "scale"), tr ++ [Image_opened b]).
Proof.
  intros H0 Hd Hs.
  unfold loop_body, bind, lift; rewrite H0.
  unfold Image_open, bind, emit; rewrite Hd; unfold ret.
  rewrite np_array_shape_firstn.
  unfold dict_append, dict_item; rewrite Hs; reflexivity.
Qed.

(** ** One request *)

Variable self : TritonPythonModel.

Local Abbreviation run := (execute_request decode resample self).

Lemma execute_request_full (request : InferenceRequest)
    (t : Tensor batch_array) (ps : list processed) (tr : trace) :
  has_blob_input request t -> requests_all request ->
  Forall2 good (rows (as_numpy t)) ps ->
  run request tr =
  (Ok {| output_tensors :=
           [mk_Tensor "output"
              (np_asarray (map (fun p => TensorArr (p_tensor p)) ps)
                          (output_dtypes self "output"));
            mk_Tensor "image"
              (np_asarray (map (fun p => ImageArr (p_resized p)) ps)
                          (output_dtypes self "image"));
            mk_Tensor "scale"
              (np_asarray (map (fun p => scale_of (p_pil p)) ps)
                          (output_dtypes self "scale"))] |},
   tr ++ map (fun p => Image_opened (p_blob p)) ps).
Proof.
  intros (Hi & Hd) (Ho & Him & Hsc) Hps.
  unfold execute_request, input_name, output_name.
  rewrite Hi, Ho, Hd; cbn [negb is_np_object_].
  unfold output_names at 1; cbn [filter snd]; rewrite Ho, Him, Hsc.
  cbn [map fst]; unfold bind.
  rewrite (for_each_full Hps); reflexivity.
Qed.

(** The checks at the head of the loop body, in their order. *)
Lemma execute_request_no_input (request : InferenceRequest) (tr : trace) :
  get_input_tensor_by_name request "input" = None ->
  run request tr =
  (Raise (ValueError (Input_tensor_not_found "input" (request_id request))), tr).
Proof.
  intros Hi; unfold execute_request, input_name; rewrite Hi; reflexivity.
Qed.

Lemma execute_request_no_output (request : InferenceRequest)
    (t : Tensor batch_array) (tr : trace) :
  get_input_tensor_by_name request "input" = Some t ->
  str_in "output" (requested_output_names request) = false ->
  run request tr =
  (Raise (ValueError (Output_not_requested "output"
                        (requested_output_names request))), tr).
Proof.
  intros Hi Ho; unfold execute_request, input_name, output_name.
  rewrite Hi, Ho; reflexivity.
Qed.

Lemma execute_request_bad_dtype (request : InferenceRequest)
    (t : Tensor batch_array) (tr : trace) :
  get_input_tensor_by_name request "input" = Some t ->
  str_in "output" (requested_output_names request) = true ->
  dtype (as_numpy t) <> np_object_ ->
  run request tr =
  (Raise (ValueError (Input_datatype_not_object (dtype (as_numpy t)))), tr).
Proof.
  intros Hi Ho Hd; unfold execute_request, input_name, output_name.
  rewrite Hi, Ho; cbn [negb].
  destruct (dtype (as_numpy t)); try reflexivity; contradiction.
Qed.

(** [execute] on one request: the response of the request, or its
    exception; an exception leaves no response at all. *)
Lemma execute_single (request : InferenceRequest) (tr : trace) :
  execute decode resample self [request] tr =
  match run request tr with
  | (Ok response, tr') => (Ok [response], tr')
  | (Raise e, tr') => (Raise e, tr')
  end.
Proof.
  unfold execute; cbn [for_list]; unfold bind, ret.
  destruct (run request tr) as [[response|e] tr']; reflexivity.
Qed.

(** An exception in one request of the list ends [execute] with that
    exception: the responses of the requests before it are not returned. *)
Lemma execute_raises (before : list InferenceRequest)
    (request : InferenceRequest) (after : list InferenceRequest) :
  forall (responses : list InferenceResponse) (tr tr1 tr2 : trace) (e : exn),
    execute decode resample self before tr = (Ok responses, tr1) ->
    run request tr1 = (Raise e, tr2) ->
    execute decode resample self (before ++ request :: after) tr =
    (Raise e, tr2).
Proof.
  unfold execute.
  induction before as [|r0 before IH]; intros responses tr tr1 tr2 e Hb Hr.
  - cbn [for_list] in Hb; unfold ret in Hb; injection Hb as _ <-.
    cbn [app for_list]; unfold bind; rewrite Hr; reflexivity.
  - cbn [app for_list] in *; unfold bind in *.
    destruct (run r0 tr) as [[resp0|e0] tr0]; [|discriminate].
    destruct (for_list before (execute_request decode resample self) tr0)
      as [[resps|e1] tr'] eqn:E; [|discriminate].
    unfold ret in Hb; injection Hb as _ <-.
    rewrite (IH _ _ _ _ _ E Hr); reflexivity.
Qed.

End Batch.

Lemma Forall2_nth_error {A B} (R : A -> B -> Prop) (l : list A) (l' : list B) :
  Forall2 R l l' ->
  forall i a, nth_error l i = Some a ->
  exists b, nth_error l' i = Some b /\ R a b.
Proof.
  induction 1 as [|x y l l' Hxy _ IH]; intros [|i] a Hi; cbn in Hi;
    try discriminate.
  - injection Hi as <-; exists y; split; [reflexivity|exact Hxy].
  - apply IH; exact Hi.
Qed.

(** An accepted image, once decoded, goes through the loop body. *)
Lemma processes_exists decode resample (b : bytes) (im : PilImage) :
  decode b = Some im ->
  accepted im ->
  exists p, processes decode resample [PyBytes b] p /\
            p_blob p = b /\ p_pil p = im.
Proof.
  intros Hd [H1|H3].
  - destruct (resize_and_normalize_grey resample H1)
      as (r & n & t & Hr & _).
    exists (mk_processed b im r t); repeat split; assumption.
  - destruct (resize_and_normalize_colour resample im H3)
      as (n & t & Hr & _).
    exists (mk_processed b im (np_array (resize resample im newsize)) t).
    repeat split; assumption.
Qed.

(** * The specified properties *)

(** C1.  When the request carries the batch as an object array, asks for the
    three outputs, and each of its N images is decoded and normalised without
    an exception, the request succeeds with the tensors [output], [image] and
    [scale], in that order; each of the three sequences has length N, and the
    element at position i of each is the one computed from the image at
    position i of the batch. *)
Theorem execute_outputs_aligned decode resample self
    (request : InferenceRequest) (t : Tensor batch_array)
    (ps : list processed) (tr : trace) :
  has_blob_input request t -> requests_all request ->
  Forall2 (processes decode resample) (rows (as_numpy t)) ps ->
  exists outs imgs scales,
    execute_request decode resample self request tr =
      (Ok {| output_tensors :=
               [mk_Tensor "output" (np_asarray outs (output_dtypes self "output"));
                mk_Tensor "image" (np_asarray imgs (output_dtypes self "image"));
                mk_Tensor "scale" (np_asarray scales (output_dtypes self "scale"))] |},
       tr ++ map (fun p => Image_opened (p_blob p)) ps) /\
    List.length outs = List.length (rows (as_numpy t)) /\
    List.length imgs = List.length (rows (as_numpy t)) /\
    List.length scales = List.length (rows (as_numpy t)) /\
    forall i img, nth_error (rows (as_numpy t)) i = Some img ->
      exists p,
        processes decode resample img p /\
        nth_error outs i = Some (TensorArr (p_tensor p)) /\
        nth_error imgs i = Some (ImageArr (p_resized p)) /\
        nth_error scales i = Some (scale_of (p_pil p)).
Proof.
  intros Hin Hall Hps.
  exists (map (fun p => TensorArr (p_tensor p)) ps),
         (map (fun p => ImageArr (p_resized p)) ps),
         (map (fun p => scale_of (p_pil p)) ps).
  split; [apply (execute_request_full self tr Hin Hall Hps)|].
  pose proof (Forall2_length Hps) as Hlen.
  rewrite !length_map.
  repeat (split; [symmetry; exact Hlen|]).
  intros i img Hi.
  destruct (Forall2_nth_error Hps _ Hi) as (p & Hp & Hgood).
  exists p; split; [exact Hgood|].
  repeat split; rewrite nth_error_map, Hp; reflexivity.
Qed.

Lemma execute_outputs_aligned_witness :
  exists outs imgs scales,
    fst (execute_request Fixture.decode Fixture.resample Fixture.self
           (Fixture.request_of [Fixture.grey_2x1; Fixture.rgb_1x1]
                               Fixture.all_outputs) []) =
      Ok {| output_tensors :=
              [mk_Tensor "output" (np_asarray outs np_float32);
               mk_Tensor "image" (np_asarray imgs np_uint8);
               mk_Tensor "scale" (np_asarray scales np_float32)] |} /\
    List.length outs = 2%nat /\ List.length imgs = 2%nat /\
    List.length scales = 2%nat.
Proof.
  destruct (@processes_exists Fixture.decode Fixture.resample
              Fixture.grey_2x1 _ eq_refl (or_introl (conj eq_refl eq_refl)))
    as (p1 & Hp1 & _).
  destruct (@processes_exists Fixture.decode Fixture.resample
              Fixture.rgb_1x1 _ eq_refl (or_intror eq_refl))
    as (p2 & Hp2 & _).
  destruct (@execute_outputs_aligned Fixture.decode Fixture.resample
              Fixture.self
              (Fixture.request_of [Fixture.grey_2x1; Fixture.rgb_1x1]
                                  Fixture.all_outputs)
              (Fixture.input_of [Fixture.grey_2x1; Fixture.rgb_1x1])
              [p1; p2] []
              (conj eq_refl eq_refl)
              (conj eq_refl (conj eq_refl eq_refl))
              (Forall2_cons _ _ Hp1 (Forall2_cons _ _ Hp2 (Forall2_nil _))))
    as (outs & imgs & scales & Hrun & Ho & Hi & Hs & _).
  exists outs, imgs, scales.
  rewrite Hrun; repeat split; assumption.
Defined.


(** The keys of the initial [batch_out] are the requested ones: an output that
    is not requested has no list. *)
Lemma batch_out_without (requested : list string) (k : string) :
  str_in k requested = false ->
  dict_get (map (fun kn : string * string => (fst kn, @nil pyval))
                (filter (fun kn => str_in (snd kn) requested) output_names))
           k = None.
Proof.
  intros Hk; unfold output_names; cbn [filter snd].
  destruct (str_in "output" requested) eqn:Eo,
           (str_in "image" requested) eqn:Ei,
           (str_in "scale" requested) eqn:Es;
    cbn [map fst dict_get];
    repeat match goal with
      | |- context [String.eqb ?a k] =>
          destruct (String.eqb_spec a k) as [<-|_]; [congruence|]
      end;
    reflexivity.
Qed.

(** A request that leaves ["scale"] out and whose first image is decodable
    stops at line 84 with a [KeyError], after one call of the decoder. *)
Lemma execute_request_without_scale decode resample self
    (request : InferenceRequest) (t : Tensor batch_array)
    (img : list pyobj) (imgs : list (list pyobj)) (b : bytes) (im : PilImage)
    (tr : trace) :
  has_blob_input request t ->
  str_in "output" (requested_output_names request) = true ->
  str_in "scale" (requested_output_names request) = false ->
  rows (as_numpy t) = img :: imgs ->
  nth_error img 0 = Some (PyBytes b) -> decode b = Some im ->
  execute_request decode resample self request tr =
  (Raise (KeyError "scale"), tr ++ [Image_opened b]).
Proof.
  intros (Hi & Hd) Ho Hs Hrows H0 Hdec.
  unfold execute_request, input_name, output_name.
  rewrite Hi, Ho, Hd, Hrows; cbn [negb is_np_object_ for_each].
  unfold bind at 1; unfold bind at 1.
  rewrite (@loop_body_no_scale decode resample _ _ _ _ tr H0 Hdec
             (batch_out_without _ _ Hs)).
  reflexivity.
Qed.

(** C2.  The code at the failing inputs.  A request for ["output"] alone with
    one decodable image raises [KeyError "scale"] at line 84, and a request
    for ["output"] and ["scale"] raises [KeyError "image"] at line 93: the
    loop indexes [batch_out] by all three keys, whatever was requested, so a
    proper subset of the outputs is not served on a non-empty batch. *)
Theorem execute_subset_request_KeyError :
  execute_request Fixture.decode Fixture.resample Fixture.self
    (Fixture.request_of [Fixture.grey_2x1] ["output"%string]) [] =
    (Raise (KeyError "scale"), [Image_opened Fixture.grey_2x1]) /\
  execute_request Fixture.decode Fixture.resample Fixture.self
    (Fixture.request_of [Fixture.grey_2x1] ["output"; "scale"]%string) [] =
    (Raise (KeyError "image"), [Image_opened Fixture.grey_2x1]).
Proof.
  split; vm_compute; reflexivity.
Qed.

Lemma np_array_item_bands (im : PilImage) (y x k : nat) :
  bands (mode im) <> 1%nat -> item (np_array im) [y; x; k] = getpixel im x y k.
Proof.
  destruct im as [m [w h] g]; destruct m; cbn; intros E;
    try reflexivity; contradiction.
Qed.

Lemma np_array_item_one_band (im : PilImage) (y x : nat) :
  bands (mode im) = 1%nat -> item (np_array im) [y; x] = getpixel im x y 0.
Proof.
  destruct im as [m [w h] g]; destruct m; cbn; intros E;
    try reflexivity; discriminate.
Qed.

(** C3 (amended).  For every decoded image whose array is two-dimensional
    with samples of an element type that [cv2.cvtColor] takes (8-bit and
    16-bit unsigned integers, 32-bit floats), or has exactly three channels,
    whatever its width and height, the per-image step succeeds and the tensor
    has shape (3, 1920, 2240).  Every other decoded image yields no tensor: a
    two-dimensional array of samples that [cv2.cvtColor] does not take
    (1-bit, 32-bit integers) stops at the conversion of line 89, and an array
    with a number of channels other than three stops at the subtraction of
    line 16. *)
Theorem tensor_shape_grey_or_colour resample (im : PilImage) :
  ((ndim (np_array im) = 2%nat /\ cv2_depth (sample_dtype (mode im)) = true) \/
   (exists h w, shape (np_array im) = [h; w; 3%nat]) ->
   exists r t,
     resize_and_normalize resample im = Ok (r, t) /\
     shape t = [3; 1920; 2240]%nat) /\
  (ndim (np_array im) = 2%nat ->
   cv2_depth (sample_dtype (mode im)) = false ->
   resize_and_normalize resample im = Raise cv2_error) /\
  (forall h w c,
     shape (np_array im) = [h; w; c] -> c <> 3%nat ->
     resize_and_normalize resample im =
     Raise (ValueError (Operands_not_broadcast [1920; 2240; c]%nat [3%nat]))).
Proof.
  assert (Hone : ndim (np_array im) = 2%nat -> bands (mode im) = 1%nat).
  { rewrite ndim_np_array.
    destruct (Nat.eqb_spec (bands (mode im)) 1) as [E|_];
      [intros _; exact E|discriminate]. }
  assert (Hmany : forall h w c, shape (np_array im) = [h; w; c] ->
                    bands (mode im) <> 1%nat /\ c = bands (mode im)).
  { intros h w c; rewrite np_array_shape.
    destruct (Nat.eqb_spec (bands (mode im)) 1) as [_|N]; [discriminate|].
    intros H; injection H as _ _ <-; split; [exact N|reflexivity]. }
  split; [|split].
  - intros [(H2 & Hd)|(h & w & H3)].
    + destruct (@resize_and_normalize_grey resample im (conj (Hone H2) Hd))
        as (r & n & t & Hr & _ & _ & _ & _ & _ & Ht).
      exists r, t; split; assumption.
    + destruct (Hmany _ _ _ H3) as (_ & E).
      destruct (resize_and_normalize_colour resample im (eq_sym E))
        as (n & t & Hr & _ & _ & Ht).
      exists (np_array (resize resample im newsize)), t; split; assumption.
  - intros H2 Hd; apply resize_and_normalize_bad_depth; auto.
  - intros h w c Hs Hc; destruct (Hmany _ _ _ Hs) as (N1 & ->).
    apply resize_and_normalize_other; assumption.
Qed.

Lemma tensor_shape_grey_or_colour_witness :
  exists im r t,
    Fixture.decode Fixture.grey16_2x1 = Some im /\
    sample_dtype (mode im) = np_uint16 /\
    resize_and_normalize Fixture.resample im = Ok (r, t) /\
    shape t = [3; 1920; 2240]%nat.
Proof.
  assert (Hd : exists im, Fixture.decode Fixture.grey16_2x1 = Some im /\
                          sample_dtype (mode im) = np_uint16 /\
                          ndim (np_array im) = 2%nat /\
                          cv2_depth (sample_dtype (mode im)) = true)
    by (eexists; repeat split; reflexivity).
  destruct Hd as (im & Hd & Hty & H2 & Hdepth).
  destruct (@tensor_shape_grey_or_colour Fixture.resample im) as (Hok & _).
  destruct (Hok (or_introl (conj H2 Hdepth))) as (r & t & Hr & Ht).
  exists im, r, t; repeat split; assumption.
Defined.

(** C3, as stated, fails on a four-channel image: the buffer is decoded, the
    array has shape (1, 1, 4), and the per-image step raises instead of
    producing a tensor; so does the request that carries it. *)
Lemma rgba_image_yields_no_tensor :
  exists im,
    Fixture.decode Fixture.rgba_1x1 = Some im /\
    shape (np_array im) = [1; 1; 4]%nat /\
    resize_and_normalize Fixture.resample im =
      Raise (ValueError (Operands_not_broadcast [1920; 2240; 4]%nat [3%nat])) /\
    fst (execute_request Fixture.decode Fixture.resample Fixture.self
           (Fixture.request_of [Fixture.rgba_1x1] Fixture.all_outputs) []) =
      Raise (ValueError (Operands_not_broadcast [1920; 2240; 4]%nat [3%nat])).
Proof.
  eexists; repeat split; vm_compute; reflexivity.
Qed.

(** C4.  In a request that is served, the scale pair at position i of the
    batch is (W / 2240, H / 1920) in binary64, where (W, H) is the size of the
    image decoded from the buffer at position i; for an image of size
    (4480, 3840) it is (2.0, 2.0). *)
Theorem scale_pair_emitted decode resample self
    (request : InferenceRequest) (t : Tensor batch_array)
    (ps : list processed) (tr : trace) :
  has_blob_input request t -> requests_all request ->
  Forall2 (processes decode resample) (rows (as_numpy t)) ps ->
  exists outs imgs scales,
    execute_request decode resample self request tr =
      (Ok {| output_tensors :=
               [mk_Tensor "output" (np_asarray outs (output_dtypes self "output"));
                mk_Tensor "image" (np_asarray imgs (output_dtypes self "image"));
                mk_Tensor "scale" (np_asarray scales (output_dtypes self "scale"))] |},
       tr ++ map (fun p => Image_opened (p_blob p)) ps) /\
    forall i img, nth_error (rows (as_numpy t)) i = Some img ->
      exists b im,
        nth_error img 0 = Some (PyBytes b) /\
        decode b = Some im /\
        nth_error scales i =
          Some (Scale (py_truediv (Z.of_nat (fst (size im))) 2240)
                      (py_truediv (Z.of_nat (snd (size im))) 1920)) /\
        (size im = (4480, 3840)%nat ->
         nth_error scales i = Some (Scale (float64_of_Z 2) (float64_of_Z 2))).
Proof.
  intros Hin Hall Hps.
  exists (map (fun p => TensorArr (p_tensor p)) ps),
         (map (fun p => ImageArr (p_resized p)) ps),
         (map (fun p => scale_of (p_pil p)) ps).
  split; [apply (execute_request_full self tr Hin Hall Hps)|].
  intros i img Hi.
  destruct (Forall2_nth_error Hps _ Hi) as (p & Hp & H0 & Hd & _).
  exists (p_blob p), (p_pil p).
  rewrite nth_error_map, Hp; cbn [option_map].
  repeat split; try assumption.
  intros Hsz; unfold scale_of, scale_pair; rewrite Hsz.
  vm_compute; reflexivity.
Qed.

Lemma scale_pair_emitted_witness :
  exists outs imgs scales,
    fst (execute_request Fixture.decode Fixture.resample Fixture.self
           (Fixture.request_of [Fixture.grey_4480x3840] Fixture.all_outputs)
           []) =
      Ok {| output_tensors :=
              [mk_Tensor "output" (np_asarray outs np_float32);
               mk_Tensor "image" (np_asarray imgs np_uint8);
               mk_Tensor "scale" (np_asarray scales np_float32)] |} /\
    nth_error scales 0 = Some (Scale (float64_of_Z 2) (float64_of_Z 2)).
Proof.
  destruct (@processes_exists Fixture.decode Fixture.resample
              Fixture.grey_4480x3840 _ eq_refl (or_introl (conj eq_refl eq_refl)))
    as (p & Hp & _).
  destruct (@scale_pair_emitted Fixture.decode Fixture.resample Fixture.self
              (Fixture.request_of [Fixture.grey_4480x3840] Fixture.all_outputs)
              (Fixture.input_of [Fixture.grey_4480x3840]) [p] []
              (conj eq_refl eq_refl)
              (conj eq_refl (conj eq_refl eq_refl))
              (Forall2_cons _ _ Hp (Forall2_nil _)))
    as (outs & imgs & scales & Hrun & Hscale).
  destruct (Hscale 0%nat _ eq_refl) as (b & im & H0 & Hd & _ & Htwo).
  exists outs, imgs, scales; rewrite Hrun; split; [reflexivity|].
  apply Htwo.
  injection H0 as <-.
  vm_compute in Hd; injection Hd as <-; reflexivity.
Defined.

(** The six constants, as binary32 numbers: 123.675, 116.28, 103.53 and
    58.395, 57.12, 57.375, each rounded to 24 bits. *)
Example mean_255_values :
  map mean_255 [0; 1; 2]%nat =
  [S754_finite false 16210330 (-17);
   S754_finite false 15241052 (-17);
   S754_finite false 13569884 (-17)].
Proof. vm_compute; reflexivity. Qed.

Example variance_255_values :
  map variance_255 [0; 1; 2]%nat =
  [S754_finite false 15307899 (-18);
   S754_finite false 14973665 (-18);
   S754_finite false 15040512 (-18)].
Proof. vm_compute; reflexivity. Qed.

(** C5.  For every buffer that decodes to an image whose resized image has
    three channels (three bands, or one band expanded at line 89), the loop
    body of [execute] appends that resized image [r] to ["image"] and, to
    ["output"], the tensor [t] of shape (3, 1920, 2240) whose element
    (c, y, x) is the sample (y, x, c) of [r], converted to binary32, minus
    [mean[c] * 255.0], divided by [variance[c] * 255.0], with the mean
    (0.485, 0.456, 0.406) and the variance (0.229, 0.224, 0.225) indexed by
    the channel, the two constants computed in binary64 and stored in
    binary32, the subtraction and the division done in binary32: the
    normalised image, transposed from height, width, channel to channel,
    height, width.  The samples of [r] are those of the resized image. *)
Theorem normalize_transpose_per_channel decode resample
    (b : bytes) (im : PilImage) (lo li ls : list pyval) (tr : trace) :
  decode b = Some im -> accepted im ->
  exists r t,
    loop_body decode resample [PyBytes b]
      [("output"%string, lo); ("image"%string, li); ("scale"%string, ls)] tr =
    (Ok [("output"%string, lo ++ [TensorArr t]);
         ("image"%string, li ++ [ImageArr r]);
         ("scale"%string, ls ++ [scale_of im])],
     tr ++ [Image_opened b]) /\
    resize_and_normalize resample im = Ok (r, t) /\
    shape r = [1920; 2240; 3]%nat /\
    shape t = [3; 1920; 2240]%nat /\
    forall c y x, (c < 3)%nat ->
      item r [y; x; c] =
        resample im newsize x y (if (bands (mode im) =? 3)%nat then c else 0%nat)
      /\
      item t [c; y; x] =
      float32_div
        (float32_sub
           (float32_of_Z (item r [y; x; c]))
           (float32_of_float64
              (float64_mul
                 (nth c [milli 485; milli 456; milli 406] (S754_zero false))
                 (float64_of_Z 255))))
        (float32_of_float64
           (float64_mul
              (nth c [milli 229; milli 224; milli 225] (S754_zero false))
              (float64_of_Z 255))).
Proof.
  intros Hd Hacc.
  assert (Hrt : exists r t,
             resize_and_normalize resample im = Ok (r, t) /\
             shape r = [1920; 2240; 3]%nat /\
             (forall c y x, (c < 3)%nat ->
                item r [y; x; c] =
                resample im newsize x y
                  (if (bands (mode im) =? 3)%nat then c else 0%nat)) /\
             exists n, normalizeMeanVariance r = Ok n /\
                       np_transpose_201 n = Ok t).
  { destruct Hacc as [He|H3].
    - destruct (resize_and_normalize_grey resample He)
        as (r & n & t & Hr & _ & Hsr & Hir & Hn & Ht & _).
      exists r, t; repeat split; try assumption; [|eauto].
      intros c y x _; destruct He as (Hb & _).
      rewrite Hir, Hb, np_array_item_one_band by exact Hb; reflexivity.
    - destruct (resize_and_normalize_colour resample im H3)
        as (n & t & Hr & Hn & Ht & _).
      exists (np_array (resize resample im newsize)), t.
      repeat split; try assumption; [| |eauto].
      + rewrite resized_shape, H3; reflexivity.
      + intros c y x _; rewrite H3, np_array_item_bands;
          [reflexivity|cbn [resize mode]; lia]. }
  destruct Hrt as (r & t & Hr & Hsr & Hir & n & Hn & Ht).
  destruct (normalize_then_transpose r Hsr)
    as (n' & t' & Hn' & Ht' & _ & Hst & Hit).
  rewrite Hn in Hn'; injection Hn' as <-.
  rewrite Ht in Ht'; injection Ht' as <-.
  exists r, t; split; [|repeat split; try assumption].
  - apply (@loop_body_full decode resample [PyBytes b]
             (mk_processed b im r t)).
    repeat split; assumption.
  - apply Hir; assumption.
  - destruct (Hit c y x H) as (Hnv & ->); rewrite Hnv; reflexivity.
Qed.

Lemma normalize_transpose_per_channel_witness :
  exists im r t,
    Fixture.decode Fixture.rgb_1x1 = Some im /\
    fst (loop_body Fixture.decode Fixture.resample [PyBytes Fixture.rgb_1x1]
           [("output"%string, []); ("image"%string, []); ("scale"%string, [])]
           []) =
    Ok [("output"%string, [TensorArr t]);
        ("image"%string, [ImageArr r]);
        ("scale"%string, [scale_of im])] /\
    shape t = [3; 1920; 2240]%nat /\
    item r [5; 7; 0]%nat = 255%Z /\ item r [5; 7; 2]%nat = 0%Z /\
    item t [0; 5; 7]%nat = S754_finite false 9432605 (-22) /\
    item t [2; 5; 7]%nat = S754_finite true 15136777 (-23).
Proof.
  assert (Hd : exists im, Fixture.decode Fixture.rgb_1x1 = Some im /\
                          bands (mode im) = 3%nat /\
                          Fixture.resample im newsize 7 5 0 = 255%Z /\
                          Fixture.resample im newsize 7 5 2 = 0%Z)
    by (eexists; repeat split; reflexivity).
  destruct Hd as (im & Hd & Hb & Hred & Hblue).
  destruct (@normalize_transpose_per_channel Fixture.decode Fixture.resample
              Fixture.rgb_1x1 im [] [] [] [] Hd (or_intror Hb))
    as (r & t & Hrun & _ & _ & Hst & Hit).
  assert (Er : item r [5; 7; 0]%nat = 255%Z).
  { destruct (Hit 0%nat 5%nat 7%nat) as (-> & _); [lia|].
    rewrite Hb; exact Hred. }
  assert (Eb : item r [5; 7; 2]%nat = 0%Z).
  { destruct (Hit 2%nat 5%nat 7%nat) as (-> & _); [lia|].
    rewrite Hb; exact Hblue. }
  exists im, r, t; rewrite Hrun.
  repeat split; try assumption.
  - destruct (Hit 0%nat 5%nat 7%nat) as (_ & ->); [lia|].
    rewrite Er; vm_compute; reflexivity.
  - destruct (Hit 2%nat 5%nat 7%nat) as (_ & ->); [lia|].
    rewrite Eb; vm_compute; reflexivity.
Defined.

(** C6, as stated, fails on a greyscale image with 1-bit samples: the buffer
    is decoded, the array is two-dimensional, and the conversion of line 89
    raises; no image and no tensor are appended, and the request that carries
    the image is not served. *)
Lemma bilevel_image_is_not_expanded :
  exists im,
    Fixture.decode Fixture.bilevel_2x1 = Some im /\
    ndim (np_array im) = 2%nat /\
    sample_dtype (mode im) = np_bool_ /\
    loop_body Fixture.decode Fixture.resample [PyBytes Fixture.bilevel_2x1]
      [("output"%string, []); ("image"%string, []); ("scale"%string, [])] [] =
    (Raise cv2_error, [Image_opened Fixture.bilevel_2x1]) /\
    fst (execute_request Fixture.decode Fixture.resample Fixture.self
           (Fixture.request_of [Fixture.bilevel_2x1] Fixture.all_outputs) []) =
    Raise cv2_error.
Proof.
  eexists; repeat split; vm_compute; reflexivity.
Qed.

(** C6 (amended).  For a decoded image whose array is two-dimensional, with
    samples of an element type that [cv2.cvtColor] takes (8-bit and 16-bit
    unsigned integers, 32-bit floats), the resized array is two-dimensional
    too; the image that the loop body appends to ["image"] has shape
    (1920, 2240, 3), each of its three channels being the resized array; and
    the tensor appended to ["output"] is the normalisation of that
    three-channel image, transposed. *)
Theorem grey_image_expanded decode resample (b : bytes) (im : PilImage)
    (lo li ls : list pyval) (tr : trace) :
  decode b = Some im -> ndim (np_array im) = 2%nat ->
  cv2_depth (sample_dtype (mode im)) = true ->
  exists r n t,
    shape (np_array (resize resample im newsize)) = [1920; 2240]%nat /\
    shape r = [1920; 2240; 3]%nat /\
    (forall y x c, (c < 3)%nat ->
       item r [y; x; c] = item (np_array (resize resample im newsize)) [y; x]) /\
    normalizeMeanVariance r = Ok n /\
    np_transpose_201 n = Ok t /\
    shape t = [3; 1920; 2240]%nat /\
    loop_body decode resample [PyBytes b]
      [("output"%string, lo); ("image"%string, li); ("scale"%string, ls)] tr =
    (Ok [("output"%string, lo ++ [TensorArr t]);
         ("image"%string, li ++ [ImageArr r]);
         ("scale"%string, ls ++ [scale_of im])],
     tr ++ [Image_opened b]).
Proof.
  intros Hd H2 Hdepth.
  rewrite ndim_np_array in H2.
  destruct (Nat.eqb_spec (bands (mode im)) 1) as [E|_]; [|discriminate].
  destruct (@resize_and_normalize_grey resample im (conj E Hdepth))
    as (r & n & t & Hr & _ & Hsr & Hir & Hn & Ht & Hst).
  exists r, n, t.
  split; [rewrite resized_shape, E; reflexivity|].
  split; [exact Hsr|].
  split; [intros y x c _; apply Hir|].
  repeat (split; [assumption|]).
  apply (@loop_body_full decode resample [PyBytes b] (mk_processed b im r t)).
  repeat split; assumption.
Qed.

Lemma grey_image_expanded_witness :
  exists im r t,
    Fixture.decode Fixture.grey_2x1 = Some im /\
    shape r = [1920; 2240; 3]%nat /\
    item r [0; 0; 0]%nat = 10%Z /\ item r [0; 0; 2]%nat = 10%Z /\
    item r [7; 2239; 0]%nat = 200%Z /\ item r [7; 2239; 1]%nat = 200%Z /\
    fst (loop_body Fixture.decode Fixture.resample [PyBytes Fixture.grey_2x1]
           [("output"%string, []); ("image"%string, []); ("scale"%string, [])]
           []) =
    Ok [("output"%string, [TensorArr t]);
        ("image"%string, [ImageArr r]);
        ("scale"%string, [scale_of im])].
Proof.
  assert (Hd : exists im, Fixture.decode Fixture.grey_2x1 = Some im /\
                          ndim (np_array im) = 2%nat /\
                          cv2_depth (sample_dtype (mode im)) = true /\
                          item (np_array (resize Fixture.resample im newsize))
                            [0; 0]%nat = 10%Z /\
                          item (np_array (resize Fixture.resample im newsize))
                            [7; 2239]%nat = 200%Z)
    by (eexists; repeat split; reflexivity).
  destruct Hd as (im & Hd & H2 & Hdepth & Hleft & Hright).
  destruct (@grey_image_expanded Fixture.decode Fixture.resample
              Fixture.grey_2x1 im [] [] [] [] Hd H2 Hdepth)
    as (r & n & t & _ & Hsr & Hir & _ & _ & _ & Hrun).
  exists im, r, t; rewrite Hrun.
  repeat split; try assumption;
    (rewrite Hir by lia); first [exact Hleft | exact Hright].
Defined.

(** C7, as stated, fails when an earlier image of the batch already stops the
    request: with a four-channel image in front of the undecodable buffer the
    request aborts with the broadcast error of the first image, and the
    undecodable buffer is never handed to the decoder. *)
Lemma undecodable_after_rgba_is_not_a_decode_error :
  Fixture.decode Fixture.corrupt = None /\
  execute_request Fixture.decode Fixture.resample Fixture.self
    (Fixture.request_of [Fixture.rgba_1x1; Fixture.corrupt] Fixture.all_outputs)
    [] =
  (Raise (ValueError (Operands_not_broadcast [1920; 2240; 4]%nat [3%nat])),
   [Image_opened Fixture.rgba_1x1]).
Proof.
  split; vm_compute; reflexivity.
Qed.

(** C7 (amended).  A request whose batch holds an undecodable buffer, at any
    position, ends in an exception: no response is produced.  The batch is
    processed in order and the first exception is the one raised: when the
    request passes the three checks and the images in front of the buffer are
    processed (which, when there are any, needs all three outputs requested),
    the exception is the decoder's, raised when the buffer is opened. *)
Theorem undecodable_buffer_aborts decode resample self
    (request : InferenceRequest) (t : Tensor batch_array) (tr : trace) :
  get_input_tensor_by_name request "input" = Some t ->
  Exists (undecodable decode) (rows (as_numpy t)) ->
  (exists e tr',
      execute_request decode resample self request tr = (Raise e, tr')) /\
  (forall before ps img b after,
      rows (as_numpy t) = before ++ img :: after ->
      dtype (as_numpy t) = np_object_ ->
      str_in "output" (requested_output_names request) = true ->
      before = [] \/ requests_all request ->
      Forall2 (processes decode resample) before ps ->
      nth_error img 0 = Some (PyBytes b) -> decode b = None ->
      execute_request decode resample self request tr =
      (Raise UnidentifiedImageError,
       tr ++ map (fun p => Image_opened (p_blob p)) ps ++ [Image_opened b])).
Proof.
  intros Hi Hex; split.
  - unfold execute_request, input_name, output_name; rewrite Hi.
    destruct (negb (str_in "output" (requested_output_names request)));
      [unfold raise; eauto|].
    destruct (negb (is_np_object_ (dtype (as_numpy t))));
      [unfold raise; eauto|].
    unfold bind at 1.
    match goal with
    | |- context [for_each _ _ ?d tr] =>
        destruct (for_each_undecodable resample Hex d tr) as (e & tr' & ->)
    end.
    eauto.
  - intros before ps img b after Hrows Hd Ho Hbefore Hps H0 Hdec.
    unfold execute_request, input_name, output_name.
    rewrite Hi, Ho, Hd, Hrows; cbn [negb is_np_object_].
    unfold bind at 1.
    destruct Hbefore as [->|(_ & Him & Hsc)].
    + inversion Hps; subst; cbn [app for_each map]; unfold bind at 1.
      rewrite (@loop_body_undecodable decode resample _ _ _ _ H0 Hdec); reflexivity.
    + unfold output_names at 1; cbn [filter snd]; rewrite Ho, Him, Hsc.
      cbn [map fst]; rewrite for_each_app; unfold bind at 1.
      rewrite (for_each_full Hps); cbn [for_each]; unfold bind at 1.
      rewrite (@loop_body_undecodable decode resample _ _ _ _ H0 Hdec).
      rewrite <- app_assoc; reflexivity.
Qed.

Lemma undecodable_buffer_aborts_witness :
  (exists e tr',
      execute_request Fixture.decode Fixture.resample Fixture.self
        (Fixture.request_of [Fixture.rgb_1x1; Fixture.corrupt; Fixture.grey_2x1]
                            Fixture.all_outputs) [] = (Raise e, tr')) /\
  execute_request Fixture.decode Fixture.resample Fixture.self
    (Fixture.request_of [Fixture.rgb_1x1; Fixture.corrupt; Fixture.grey_2x1]
                        Fixture.all_outputs) [] =
  (Raise UnidentifiedImageError,
   [Image_opened Fixture.rgb_1x1; Image_opened Fixture.corrupt]).
Proof.
  destruct (@processes_exists Fixture.decode Fixture.resample
              Fixture.rgb_1x1 _ eq_refl (or_intror eq_refl))
    as (p & Hp & Hb & _).
  assert (Hex : Exists (undecodable Fixture.decode)
                   (rows (as_numpy
                            (Fixture.input_of
                               [Fixture.rgb_1x1; Fixture.corrupt;
                                Fixture.grey_2x1])))).
  { apply Exists_cons_tl, Exists_cons_hd.
    exists Fixture.corrupt; split; reflexivity. }
  destruct (@undecodable_buffer_aborts Fixture.decode Fixture.resample
              Fixture.self
              (Fixture.request_of
                 [Fixture.rgb_1x1; Fixture.corrupt; Fixture.grey_2x1]
                 Fixture.all_outputs)
              (Fixture.input_of
                 [Fixture.rgb_1x1; Fixture.corrupt; Fixture.grey_2x1])
              [] eq_refl Hex)
    as (Habort & Hkind).
  split; [exact Habort|].
  rewrite (Hkind [[PyBytes Fixture.rgb_1x1]] [p] [PyBytes Fixture.corrupt]
             Fixture.corrupt [[PyBytes Fixture.grey_2x1]]
             eq_refl eq_refl eq_refl
             (or_intror (conj eq_refl (conj eq_refl eq_refl)))
             (Forall2_cons _ _ Hp (Forall2_nil _)) eq_refl eq_refl).
  cbn [map app]; rewrite Hb; reflexivity.
Defined.

(** C8, as stated, fails on a request that does not carry the input tensor:
    the check of line 62 comes first and raises its own error. *)
Lemma no_input_comes_before_no_output :
  str_in "output"
    (requested_output_names (Fixture.request_without_input ["image"%string]))
  = false /\
  execute_request Fixture.decode Fixture.resample Fixture.self
    (Fixture.request_without_input ["image"%string]) [] =
  (Raise (ValueError (Input_tensor_not_found "input" "2")), []).
Proof.
  split; reflexivity.
Qed.

(** C8 (amended).  For every request that carries the input tensor and whose
    requested outputs do not include ["output"], the request raises the error
    of line 67, and the decoder has not been called: the log of decoder calls
    is the one the request started with. *)
Theorem missing_output_raises_first decode resample self
    (request : InferenceRequest) (t : Tensor batch_array) (tr : trace) :
  get_input_tensor_by_name request "input" = Some t ->
  str_in "output" (requested_output_names request) = false ->
  execute_request decode resample self request tr =
  (Raise (ValueError (Output_not_requested "output"
                        (requested_output_names request))), tr).
Proof.
  intros Hi Ho; apply execute_request_no_output with (t := t); assumption.
Qed.

Lemma missing_output_raises_first_witness :
  execute_request Fixture.decode Fixture.resample Fixture.self
    (Fixture.request_of [Fixture.grey_2x1] ["image"; "scale"]%string) [] =
  (Raise (ValueError (Output_not_requested "output" ["image"; "scale"]%string)),
   []).
Proof.
  apply (@missing_output_raises_first Fixture.decode Fixture.resample
           Fixture.self
           (Fixture.request_of [Fixture.grey_2x1] ["image"; "scale"]%string)
           (Fixture.input_of [Fixture.grey_2x1]) []);
    reflexivity.
Defined.

(** C9, as stated, fails on a request with a numeric input tensor that does
    not ask for ["output"]: the check of line 66 comes first and raises its
    own error. *)
Lemma no_output_comes_before_bad_dtype :
  dtype (as_numpy (mk_Tensor "input" (mk_batch_array np_float32 [[PyNum 1]])))
  <> np_object_ /\
  execute_request Fixture.decode Fixture.resample Fixture.self
    (Fixture.numeric_request ["image"%string]) [] =
  (Raise (ValueError (Output_not_requested "output" ["image"%string])), []).
Proof.
  split; [discriminate|reflexivity].
Qed.

(** C9 (amended).  For every request that asks for ["output"] and whose input
    tensor has an element type other than the object type, the request raises
    the error of line 74, which names that type, and the decoder has not been
    called. *)
Theorem bad_dtype_raises_before_loop decode resample self
    (request : InferenceRequest) (t : Tensor batch_array) (tr : trace) :
  get_input_tensor_by_name request "input" = Some t ->
  str_in "output" (requested_output_names request) = true ->
  dtype (as_numpy t) <> np_object_ ->
  execute_request decode resample self request tr =
  (Raise (ValueError (Input_datatype_not_object (dtype (as_numpy t)))), tr).
Proof.
  intros Hi Ho Hd; apply execute_request_bad_dtype; assumption.
Qed.

Lemma bad_dtype_raises_before_loop_witness :
  execute_request Fixture.decode Fixture.resample Fixture.self
    (Fixture.numeric_request Fixture.all_outputs) [] =
  (Raise (ValueError (Input_datatype_not_object np_float32)), []).
Proof.
  apply (@bad_dtype_raises_before_loop Fixture.decode Fixture.resample
           Fixture.self (Fixture.numeric_request Fixture.all_outputs)
           (mk_Tensor "input" (mk_batch_array np_float32 [[PyNum 1]])) []);
    [reflexivity|reflexivity|discriminate].
Defined.

(** C10.  For a request that carries the input tensor as an object array with
    no rows and asks for ["output"], the request succeeds without a call of
    the decoder; the response holds one tensor for each requested output, in
    the order output, image, scale, and each of them is empty. *)
Theorem empty_batch_gives_empty_outputs decode resample self
    (request : InferenceRequest) (t : Tensor batch_array) (tr : trace) :
  get_input_tensor_by_name request "input" = Some t ->
  str_in "output" (requested_output_names request) = true ->
  dtype (as_numpy t) = np_object_ ->
  rows (as_numpy t) = [] ->
  exists response,
    execute_request decode resample self request tr = (Ok response, tr) /\
    map (@name stacked) (output_tensors response) =
      filter (fun n => str_in n (requested_output_names request))
             ["output"; "image"; "scale"]%string /\
    Forall (fun T => stacked_elems (as_numpy T) = [])
           (output_tensors response).
Proof.
  intros Hi Ho Hd Hrows.
  unfold execute_request, input_name, output_name.
  rewrite Hi, Ho, Hd, Hrows; cbn [negb is_np_object_ for_each].
  unfold output_names at 1; cbn [filter snd]; rewrite Ho.
  destruct (str_in "image" (requested_output_names request)),
           (str_in "scale" (requested_output_names request));
    eexists; (split; [reflexivity|]); split;
    [reflexivity|repeat constructor .. ].
Qed.

Lemma empty_batch_gives_empty_outputs_witness :
  exists response,
    execute_request Fixture.decode Fixture.resample Fixture.self
      (Fixture.request_of [] ["scale"; "output"]%string) [] =
      (Ok response, []) /\
    map (@name stacked) (output_tensors response) = ["output"; "scale"]%string /\
    Forall (fun T => stacked_elems (as_numpy T) = [])
           (output_tensors response).
Proof.
  apply (@empty_batch_gives_empty_outputs Fixture.decode Fixture.resample
           Fixture.self (Fixture.request_of [] ["scale"; "output"]%string)
           (Fixture.input_of []) []);
    reflexivity.
Defined.


(** * Further properties *)

(** ** [normalizeMeanVariance] on arrays of any rank *)

Lemma inplace_op_last3 op (img row : ndarray float32) :
  shape row = [3%nat] -> shape img <> [] -> last (shape img) 0%nat = 3%nat ->
  inplace_op op img row =
  Ok {| shape := shape img;
        item := fun idx => op (item img idx) (item row [last idx 0%nat]) |}.
Proof.
  intros Hr Hne Hl; unfold inplace_op; rewrite Hr, Hl.
  destruct (shape img); [contradiction|reflexivity].
Qed.

Lemma inplace_op_not_last3 op (img row : ndarray float32) :
  shape row = [3%nat] ->
  shape img = [] \/ last (shape img) 0%nat <> 3%nat ->
  inplace_op op img row =
  Raise (ValueError (Operands_not_broadcast (shape img) [3%nat])).
Proof.
  intros Hr H; unfold inplace_op; rewrite Hr.
  destruct H as [->|Hl]; [reflexivity|].
  destruct (Nat.eqb_spec (last (shape img) 0%nat) 3) as [E|_];
    [contradiction|].
  cbn [orb Nat.eqb]; rewrite andb_false_r; reflexivity.
Qed.

(** X1.  [normalizeMeanVariance], with any mean and variance, succeeds exactly
    on the arrays that have a last axis of length three, whatever their rank;
    it keeps the shape, and the element at an index is the sample there,
    converted to binary32, minus the mean constant and divided by the variance
    constant of the last coordinate of the index.  On every other array it
    raises the broadcast error that names the shape. *)
Theorem normalizeMeanVariance_last_axis (mean variance : triple)
    (a : ndarray Z) :
  (shape a <> [] /\ last (shape a) 0%nat = 3%nat /\
   exists n,
     normalizeMeanVariance_with mean variance a = Ok n /\
     shape n = shape a /\
     forall idx,
       item n idx =
       float32_div
         (float32_sub (float32_of_Z (item a idx))
            (item (float32_row (times_255 mean)) [last idx 0%nat]))
         (item (float32_row (times_255 variance)) [last idx 0%nat]))
  \/
  ((shape a = [] \/ last (shape a) 0%nat <> 3%nat) /\
   normalizeMeanVariance_with mean variance a =
   Raise (ValueError (Operands_not_broadcast (shape a) [3%nat]))).
Proof.
  pose proof (float32_row_times_255_shape mean) as Hm.
  pose proof (float32_row_times_255_shape variance) as Hv.
  unfold normalizeMeanVariance_with.
  destruct (list_eq_dec Nat.eq_dec (shape a) []) as [Es|Hne].
  - right; split; [left; exact Es|].
    rewrite (@inplace_op_not_last3 float32_sub (astype float32_of_Z a) _ Hm
               (or_introl Es)).
    reflexivity.
  - destruct (Nat.eq_dec (last (shape a) 0%nat) 3) as [El|Nl].
    + left; split; [exact Hne|]; split; [exact El|].
      rewrite (@inplace_op_last3 float32_sub (astype float32_of_Z a) _ Hm Hne El).
      cbn [result_bind].
      rewrite inplace_op_last3; [|exact Hv|exact Hne|exact El].
      cbn [result_bind].
      eexists; split; [reflexivity|]; split; reflexivity.
    + right; split; [right; exact Nl|].
      rewrite (@inplace_op_not_last3 float32_sub (astype float32_of_Z a) _ Hm
               (or_intror Nl)).
      reflexivity.
Qed.

(** ** The range of the normalised values *)

Lemma pixel_values_In (p : Z) : (0 <= p <= 255)%Z -> In p pixel_values.
Proof.
  intros Hp; unfold pixel_values.
  rewrite <- (Z2Nat.id p) by lia.
  apply in_map, in_seq; lia.
Qed.

Lemma pixel_values_nth (i : nat) :
  (i < 256)%nat -> nth i pixel_values 0%Z = Z.of_nat i.
Proof.
  intros Hi; unfold pixel_values.
  change 0%Z with (Z.of_nat 0); rewrite map_nth, seq_nth by exact Hi.
  reflexivity.
Qed.

Lemma pairwise_nth {A} (r : A -> A -> bool) (d : A) (l : list A) :
  pairwise r l = true ->
  forall i j, (i < j)%nat -> (j < List.length l)%nat ->
  r (nth i l d) (nth j l d) = true.
Proof.
  induction l as [|x l IH]; intros Hp i j Hij Hj; cbn in Hj; [lia|].
  cbn [pairwise] in Hp; apply andb_true_iff in Hp as [Hx Hl].
  destruct j as [|j]; [lia|]; destruct i as [|i]; cbn [nth].
  - rewrite forallb_forall in Hx; apply Hx, nth_In; lia.
  - apply IH; [exact Hl|lia|lia].
Qed.

Lemma normalized_in_range (c : nat) (p : Z) :
  (c < 3)%nat -> (0 <= p <= 255)%Z ->
  is_finite (normalized c p) = true /\
  SFleb normalized_min (normalized c p) = true /\
  SFleb (normalized c p) normalized_max = true.
Proof.
  intros Hc Hp.
  assert (Hall :
    forallb (fun c' =>
      forallb (fun q =>
        is_finite (normalized c' q)
        && SFleb normalized_min (normalized c' q)
        && SFleb (normalized c' q) normalized_max) pixel_values)
      [0; 1; 2]%nat = true) by (vm_compute; reflexivity).
  rewrite forallb_forall in Hall.
  assert (Hin : In c [0; 1; 2]%nat)
    by (destruct c as [|[|[|c]]]; cbn; auto; lia).
  specialize (Hall c Hin); rewrite forallb_forall in Hall.
  specialize (Hall p (pixel_values_In Hp)).
  apply andb_true_iff in Hall as [Hall H3].
  apply andb_true_iff in Hall as [H1 H2].
  repeat split; assumption.
Qed.

Lemma normalized_increasing (c : nat) (p q : Z) :
  (c < 3)%nat -> (0 <= p)%Z -> (p < q)%Z -> (q <= 255)%Z ->
  SFltb (normalized c p) (normalized c q) = true.
Proof.
  intros Hc H0 Hpq Hq.
  assert (Hall :
    forallb (fun c' => pairwise SFltb (map (normalized c') pixel_values))
      [0; 1; 2]%nat = true) by (vm_compute; reflexivity).
  rewrite forallb_forall in Hall.
  assert (Hin : In c [0; 1; 2]%nat)
    by (destruct c as [|[|[|c]]]; cbn; auto; lia).
  specialize (Hall c Hin).
  pose proof (@pairwise_nth _ SFltb (normalized c 0%Z) _ Hall
                (Z.to_nat p) (Z.to_nat q)) as H.
  rewrite length_map in H.
  assert (Hlen : List.length pixel_values = 256%nat) by reflexivity.
  rewrite Hlen in H.
  change (normalized c 0%Z) with (normalized c (nth 256 pixel_values 0%Z)) in H.
  rewrite !(map_nth (normalized c)) in H.
  change (nth 256 pixel_values 0%Z) with 0%Z in H.
  rewrite !pixel_values_nth, !Z2Nat.id in H by lia.
  apply H; lia.
Qed.

(** X2.  On a height by width by 3 array of 8-bit samples (0 to 255), every
    element of the normalised array is a finite binary32 number between -2.12
    and 2.65: the division never overflows and never yields a NaN. *)
Theorem normalized_samples_bounded (a : ndarray Z) (h w : nat) :
  shape a = [h; w; 3%nat] ->
  (forall idx, (0 <= item a idx <= 255)%Z) ->
  exists n,
    normalizeMeanVariance a = Ok n /\
    forall y x c, (c < 3)%nat ->
      is_finite (item n [y; x; c]) = true /\
      SFleb (float32_of_float64 (py_truediv (-212) 100)) (item n [y; x; c])
        = true /\
      SFleb (item n [y; x; c]) (float32_of_float64 (py_truediv 265 100))
        = true.
Proof.
  intros Ha Hpix.
  destruct (normalize_then_transpose a Ha) as (n & t & Hn & _ & _ & _ & Hit).
  exists n; split; [exact Hn|].
  intros y x c Hc; destruct (Hit c y x Hc) as (-> & _).
  apply (normalized_in_range Hc (Hpix [y; x; c])).
Qed.

Lemma normalized_samples_bounded_witness :
  exists n,
    normalizeMeanVariance
      {| shape := [1; 1; 3]%nat;
         item := fun idx => nth (last idx 0%nat) [255; 128; 0]%Z 0%Z |} = Ok n /\
    is_finite (item n [0; 0; 2]%nat) = true.
Proof.
  destruct (@normalized_samples_bounded
              {| shape := [1; 1; 3]%nat;
                 item := fun idx => nth (last idx 0%nat) [255; 128; 0]%Z 0%Z |}
              1%nat 1%nat eq_refl)
    as (n & Hn & Hb).
  - intros idx; cbn [item].
    destruct (last idx 0%nat) as [|[|[|[|k]]]]; cbn; lia.
  - exists n; split; [exact Hn|apply (Hb 0%nat 0%nat 2%nat); lia].
Defined.

(** X3.  Normalisation keeps the order of the samples of a channel: on a
    height by width by 3 array of 8-bit samples, a smaller sample of channel
    [c] is mapped to a strictly smaller binary32 number, wherever the two
    samples are. *)
Theorem normalized_samples_ordered (a : ndarray Z) (h w : nat) :
  shape a = [h; w; 3%nat] ->
  (forall idx, (0 <= item a idx <= 255)%Z) ->
  exists n,
    normalizeMeanVariance a = Ok n /\
    forall y x y' x' c, (c < 3)%nat ->
      (item a [y; x; c] < item a [y'; x'; c])%Z ->
      SFltb (item n [y; x; c]) (item n [y'; x'; c]) = true.
Proof.
  intros Ha Hpix.
  destruct (normalize_then_transpose a Ha) as (n & t & Hn & _ & _ & _ & Hit).
  exists n; split; [exact Hn|].
  intros y x y' x' c Hc Hlt.
  destruct (Hit c y x Hc) as (-> & _); destruct (Hit c y' x' Hc) as (-> & _).
  apply normalized_increasing;
    [exact Hc|apply Hpix|exact Hlt|apply Hpix].
Qed.

Lemma normalized_samples_ordered_witness :
  exists n,
    normalizeMeanVariance
      {| shape := [1; 2; 3]%nat;
         item := fun idx =>
           (Z.of_nat (Nat.min (nth 1 idx 0%nat) 1) * 5 + 10)%Z |} = Ok n /\
    SFltb (item n [0; 0; 1]%nat) (item n [0; 1; 1]%nat) = true.
Proof.
  assert (Hpix : forall idx,
             (0 <= Z.of_nat (Nat.min (nth 1 idx 0%nat) 1) * 5 + 10 <= 255)%Z)
    by (intros idx; lia).
  destruct (@normalized_samples_ordered
              {| shape := [1; 2; 3]%nat;
                 item := fun idx =>
                   (Z.of_nat (Nat.min (nth 1 idx 0%nat) 1) * 5 + 10)%Z |}
              1%nat 2%nat eq_refl Hpix)
    as (n & Hn & Hord).
  exists n; split; [exact Hn|].
  apply Hord; [lia|cbn; lia].
Defined.

(** ** The per-image step, by number of bands *)

(** X4.  The per-image step succeeds exactly on the decoded images that have
    three bands, or one band of samples of an element type that
    [cv2.cvtColor] takes (8-bit and 16-bit unsigned integers, 32-bit floats).
    With one band of other samples (1-bit, 32-bit integers) it raises the
    error of
    [cv2.cvtColor] at line 89; with two or four bands it raises NumPy's
    broadcast error, which names the shape (1920, 2240, bands); the error of
    line 92 is raised for no decoded image. *)
Theorem resize_and_normalize_by_bands resample (im : PilImage) :
  ((exists r t, resize_and_normalize resample im = Ok (r, t)) <->
   bands (mode im) = 3%nat \/
   (bands (mode im) = 1%nat /\ cv2_depth (sample_dtype (mode im)) = true)) /\
  (bands (mode im) = 1%nat -> cv2_depth (sample_dtype (mode im)) = false ->
   resize_and_normalize resample im = Raise cv2_error) /\
  (bands (mode im) <> 1%nat -> bands (mode im) <> 3%nat ->
   resize_and_normalize resample im =
   Raise (ValueError
            (Operands_not_broadcast [1920; 2240; bands (mode im)]%nat
                                    [3%nat]))) /\
  (forall n,
     resize_and_normalize resample im <>
     Raise (ValueError (Unsupported_channels n))).
Proof.
  split; [|split; [|split]].
  - rewrite accepted_iff; unfold accepted, expandable; tauto.
  - apply resize_and_normalize_bad_depth.
  - apply resize_and_normalize_other.
  - intros n H.
    destruct (accepted_dec im) as [Ha|[(Hb & Hd)|(N1 & N3)]].
    + apply (accepted_iff resample) in Ha as (r & t & Hr).
      rewrite Hr in H; discriminate.
    + rewrite (resize_and_normalize_bad_depth resample im Hb Hd) in H.
      discriminate.
    + rewrite (resize_and_normalize_other resample im N1 N3) in H.
      discriminate.
Qed.

(** X5.  Whatever image a row holds, once the loop body accepts it the two
    arrays it appends have fixed shapes, (1920, 2240, 3) for the image and
    (3, 1920, 2240) for the tensor, and the tensor is the normalisation of
    the appended image, transposed: its element (c, y, x) is the normalised
    value of the sample (y, x, c) of that image. *)
Theorem processed_outputs_consistent decode resample
    (img : list pyobj) (p : processed) :
  processes decode resample img p ->
  shape (p_resized p) = [1920; 2240; 3]%nat /\
  shape (p_tensor p) = [3; 1920; 2240]%nat /\
  (exists n,
     normalizeMeanVariance (p_resized p) = Ok n /\
     np_transpose_201 n = Ok (p_tensor p)) /\
  forall c y x, (c < 3)%nat ->
    item (p_tensor p) [c; y; x] =
    float32_div
      (float32_sub (float32_of_Z (item (p_resized p) [y; x; c])) (mean_255 c))
      (variance_255 c).
Proof.
  intros (_ & _ & Hp).
  assert (Hacc : accepted (p_pil p))
    by (apply (accepted_iff resample); eauto).
  assert (Hs : shape (p_resized p) = [1920; 2240; 3]%nat /\
               exists n, normalizeMeanVariance (p_resized p) = Ok n /\
                         np_transpose_201 n = Ok (p_tensor p)).
  { destruct Hacc as [He|E3].
    - destruct (resize_and_normalize_grey resample He)
        as (r & n & t & Hr & _ & Hsr & _ & Hn & Ht & _).
      rewrite Hr in Hp; injection Hp as <- <-; eauto.
    - destruct (resize_and_normalize_colour resample _ E3)
        as (n & t & Hr & Hn & Ht & _).
      rewrite Hr in Hp; injection Hp as <- <-.
      split; [rewrite resized_shape, E3; reflexivity|eauto]. }
  destruct Hs as (Hs & n & Hn & Ht).
  destruct (normalize_then_transpose _ Hs)
    as (n' & t' & Hn' & Ht' & _ & Hst & Hit).
  rewrite Hn in Hn'; injection Hn' as <-.
  rewrite Ht in Ht'; injection Ht' as <-.
  repeat split; try assumption.
  - exists n; split; assumption.
  - intros c y x Hc; destruct (Hit c y x Hc) as (Hnv & ->); exact Hnv.
Qed.

Lemma processed_outputs_consistent_witness :
  exists p,
    processes Fixture.decode Fixture.resample [PyBytes Fixture.grey_2x1] p /\
    shape (p_resized p) = [1920; 2240; 3]%nat /\
    shape (p_tensor p) = [3; 1920; 2240]%nat.
Proof.
  destruct (@processes_exists Fixture.decode Fixture.resample
              Fixture.grey_2x1 _ eq_refl (or_introl (conj eq_refl eq_refl)))
    as (p & Hp & _).
  destruct (@processed_outputs_consistent Fixture.decode Fixture.resample
              _ p Hp) as (Hr & Ht & _).
  exists p; split; [exact Hp|split; assumption].
Defined.

(** ** When a request is served *)

Lemma dict_get_set_other {V} (d : dict V) (k k' : string) (v : V) :
  k <> k' -> dict_get (dict_set d k v) k' = dict_get d k'.
Proof.
  intros Hk; induction d as [|[k0 v0] d IH]; cbn [dict_set dict_get];
    [reflexivity|].
  destruct (String.eqb_spec k0 k) as [->|Hk0]; cbn [dict_get].
  - destruct (String.eqb_spec k k') as [E|_]; [contradiction|reflexivity].
  - rewrite IH; reflexivity.
Qed.

(** The tensors built from the initial [batch_out]. *)
Lemma output_tensors_initial (self : TritonPythonModel)
    (wanted : string * string -> bool) :
  result_map
    (fun kout : string * list pyval =>
       let? n := dict_item output_names (fst kout) in
       Ok (mk_Tensor n (np_asarray (snd kout) (output_dtypes self (fst kout)))))
    (map (fun kn : string * string => (fst kn, [])) (filter wanted output_names))
  = Ok (map (fun kn : string * string =>
               mk_Tensor (snd kn) (np_asarray [] (output_dtypes self (fst kn))))
            (filter wanted output_names)).
Proof.
  unfold output_names; cbn [filter].
  destruct (wanted ("output"%string, "output"%string)),
           (wanted ("image"%string, "image"%string)),
           (wanted ("scale"%string, "scale"%string)); reflexivity.
Qed.

Section Served.

Variable decode : bytes -> option PilImage.
Variable resample : PilImage -> nat * nat -> nat -> nat -> nat -> Z.
Variable self : TritonPythonModel.

Local Abbreviation body := (loop_body decode resample).
Local Abbreviation good := (processes decode resample).
Local Abbreviation run := (execute_request decode resample self).
Local Abbreviation full lo li ls :=
  [("output"%string, lo); ("image"%string, li); ("scale"%string, ls)].

Lemma good_serviceable (img : list pyobj) :
  (exists p, good img p) <-> serviceable decode img.
Proof.
  split.
  - intros (p & H0 & Hd & Hr).
    exists (p_blob p), (p_pil p); repeat split; try assumption.
    apply (accepted_iff resample); eauto.
  - intros (b & im & H0 & Hd & Hb).
    destruct (@processes_exists decode resample b im Hd Hb)
      as (p & (_ & Hd' & Hr) & Eb & Ei).
    exists p; repeat split; try assumption.
    rewrite Eb; exact H0.
Qed.

Lemma Forall_good (imgs : list (list pyobj)) :
  Forall (serviceable decode) imgs <-> exists ps, Forall2 good imgs ps.
Proof.
  split.
  - induction 1 as [|img imgs Himg _ (ps & IH)]; [exists []; constructor|].
    apply good_serviceable in Himg as (p & Hp).
    exists (p :: ps); constructor; assumption.
  - intros (ps & H); induction H as [|img p imgs ps Hp _ IH]; constructor;
      [apply good_serviceable; exists p; exact Hp|exact IH].
Qed.

(** An accepted row needs the keys ["scale"] and ["image"]. *)
Lemma loop_body_needs_keys (img : list pyobj) (d d' : dict (list pyval))
    (tr tr' : trace) :
  body img d tr = (Ok d', tr') ->
  dict_get d "scale" <> None /\ dict_get d "image" <> None.
Proof.
  unfold loop_body, bind, lift.
  destruct (nth_error img 0) as [[b|z]|]; try discriminate.
  unfold Image_open, bind, emit, raise.
  destruct (decode b) as [im|]; try discriminate; unfold ret.
  rewrite np_array_shape_firstn.
  unfold dict_append at 1, dict_item.
  destruct (dict_get d "scale") as [ls|] eqn:Es; [|discriminate].
  cbn [result_bind].
  destruct (resize_and_normalize resample im) as [[r t]|e]; [|discriminate].
  unfold dict_append at 1, dict_item.
  rewrite dict_get_set_other by discriminate.
  destruct (dict_get d "image") as [li|] eqn:Ei; [|discriminate].
  intros _; split; discriminate.
Qed.

Lemma loop_body_full_inv (img : list pyobj) (lo li ls : list pyval)
    (d' : dict (list pyval)) (tr tr' : trace) :
  body img (full lo li ls) tr = (Ok d', tr') ->
  exists p,
    good img p /\
    d' = full (lo ++ [TensorArr (p_tensor p)])
              (li ++ [ImageArr (p_resized p)])
              (ls ++ [scale_of (p_pil p)]) /\
    tr' = tr ++ [Image_opened (p_blob p)].
Proof.
  intros H.
  destruct (nth_error img 0) as [[b|z]|] eqn:E0;
    [|unfold loop_body, bind, lift in H; rewrite E0 in H; discriminate ..].
  destruct (decode b) as [im|] eqn:Ed;
    [|rewrite (@loop_body_undecodable decode resample _ _ _ _ E0 Ed) in H;
      discriminate].
  destruct (resize_and_normalize resample im) as [[r t]|e] eqn:Er.
  - assert (Hg : good img (mk_processed b im r t))
      by (repeat split; assumption).
    rewrite (loop_body_full lo li ls tr Hg) in H.
    injection H as <- <-; exists (mk_processed b im r t); auto.
  - unfold loop_body, bind, lift in H; rewrite E0 in H.
    unfold Image_open, bind, emit in H; rewrite Ed in H; unfold ret in H.
    rewrite np_array_shape_firstn, Er in H; discriminate.
Qed.

Lemma for_each_full_inv (imgs : list (list pyobj)) :
  forall lo li ls d' tr tr',
    for_each imgs body (full lo li ls) tr = (Ok d', tr') ->
    exists ps,
      Forall2 good imgs ps /\
      d' = full (lo ++ map (fun p => TensorArr (p_tensor p)) ps)
                (li ++ map (fun p => ImageArr (p_resized p)) ps)
                (ls ++ map (fun p => scale_of (p_pil p)) ps) /\
      tr' = tr ++ map (fun p => Image_opened (p_blob p)) ps.
Proof.
  induction imgs as [|img imgs IH]; intros lo li ls d' tr tr' H.
  - cbn [for_each] in H; unfold ret in H; injection H as <- <-.
    exists []; cbn [map]; rewrite !app_nil_r.
    split; [constructor|split; reflexivity].
  - cbn [for_each] in H; unfold bind in H.
    destruct (body img (full lo li ls) tr) as [[d1|e] tr1] eqn:Eb;
      [|discriminate].
    apply loop_body_full_inv in Eb as (p & Hp & -> & ->).
    apply IH in H as (ps & Hps & -> & ->).
    exists (p :: ps); cbn [map]; rewrite <- !app_assoc.
    split; [constructor; assumption|split; reflexivity].
Qed.

(** What a served request looks like. *)
Lemma execute_request_ok_inv (request : InferenceRequest)
    (response : InferenceResponse) (tr tr' : trace) :
  run request tr = (Ok response, tr') ->
  exists t,
    has_blob_input request t /\
    str_in "output" (requested_output_names request) = true /\
    ((rows (as_numpy t) = [] /\
      response = empty_response self (requested_output_names request) /\
      tr' = tr) \/
     (rows (as_numpy t) <> [] /\ requests_all request /\
      exists ps,
        Forall2 good (rows (as_numpy t)) ps /\
        response = full_response self ps /\
        tr' = tr ++ map (fun p => Image_opened (p_blob p)) ps)).
Proof.
  intros H; unfold execute_request, input_name, output_name in H.
  destruct (get_input_tensor_by_name request "input") as [t|] eqn:Ei;
    [|discriminate].
  destruct (str_in "output" (requested_output_names request)) eqn:Eo;
    [|discriminate].
  cbn [negb] in H.
  destruct (is_np_object_ (dtype (as_numpy t))) eqn:Ed; [|discriminate].
  cbn [negb] in H.
  assert (Hd : dtype (as_numpy t) = np_object_)
    by (destruct (dtype (as_numpy t)); try discriminate; reflexivity).
  exists t; split; [split; assumption|]; split; [reflexivity|].
  unfold bind at 1 in H.
  destruct (rows (as_numpy t)) as [|img imgs] eqn:Er.
  - left; cbn [for_each] in H; unfold ret at 1, bind, lift in H.
    rewrite output_tensors_initial in H; unfold ret in H.
    injection H as <- <-; auto.
  - right; split; [discriminate|].
    match type of H with
    | context [for_each _ _ ?d0 tr] =>
        destruct (for_each (img :: imgs) body d0 tr) as [[d'|e] tr1] eqn:Ef;
          [|discriminate]
    end.
    assert (Hk : str_in "image" (requested_output_names request) = true /\
                 str_in "scale" (requested_output_names request) = true).
    { cbn [for_each] in Ef; unfold bind in Ef.
      match type of Ef with
      | context [body img ?d0 tr] =>
          destruct (body img d0 tr) as [[d1|e] tr2] eqn:Eb; [|discriminate]
      end.
      apply loop_body_needs_keys in Eb as (Hs & Hi).
      split.
      - destruct (str_in "image" (requested_output_names request)) eqn:E;
          [reflexivity|].
        exfalso; apply Hi, batch_out_without; exact E.
      - destruct (str_in "scale" (requested_output_names request)) eqn:E;
          [reflexivity|].
        exfalso; apply Hs, batch_out_without; exact E. }
    destruct Hk as (Him & Hsc).
    split; [repeat split; assumption|].
    unfold output_names at 1 in Ef; cbn [filter snd] in Ef.
    rewrite Eo, Him, Hsc in Ef; cbn [map fst] in Ef.
    apply for_each_full_inv in Ef as (ps & Hps & -> & ->).
    exists ps; split; [exact Hps|].
    unfold bind, lift in H; cbn in H; unfold ret in H.
    injection H as <- <-; split; reflexivity.
Qed.

End Served.

Lemma execute_request_empty decode resample self
    (request : InferenceRequest) (t : Tensor batch_array) (tr : trace) :
  has_blob_input request t ->
  str_in "output" (requested_output_names request) = true ->
  rows (as_numpy t) = [] ->
  execute_request decode resample self request tr =
  (Ok (empty_response self (requested_output_names request)), tr).
Proof.
  intros (Hi & Hd) Ho Hr.
  unfold execute_request, input_name, output_name.
  rewrite Hi, Ho, Hd, Hr; cbn [negb is_np_object_ for_each].
  unfold bind, ret, lift; rewrite output_tensors_initial; reflexivity.
Qed.

(** X6.  A request is served (a response is returned) exactly when it carries
    the input tensor as an object array, asks for ["output"], and either the
    batch has no rows, or all three outputs are requested and every row holds
    a buffer that decodes to an image with three bands, or with one band of
    samples of an element type that [cv2.cvtColor] takes (8-bit and 16-bit
    unsigned integers, 32-bit floats). *)
Theorem execute_request_served_iff decode resample self
    (request : InferenceRequest) (tr : trace) :
  (exists response tr',
      execute_request decode resample self request tr = (Ok response, tr'))
  <->
  (exists t,
      has_blob_input request t /\
      str_in "output" (requested_output_names request) = true /\
      (rows (as_numpy t) = [] \/
       (requests_all request /\
        Forall (serviceable decode) (rows (as_numpy t))))).
Proof.
  split.
  - intros (response & tr' & H).
    apply execute_request_ok_inv in H
      as (t & Hin & Ho & [(Hr & _)|(_ & Hall & ps & Hps & _)]).
    + exists t; auto.
    + exists t; repeat split; try apply Hin; try exact Ho.
      right; split; [exact Hall|].
      apply (Forall_good decode resample); exists ps; exact Hps.
  - intros (t & Hin & Ho & [Hr|(Hall & Hrows)]).
    + eexists; eexists; apply (execute_request_empty _ _ _ _ Hin Ho Hr).
    + apply (Forall_good decode resample) in Hrows as (ps & Hps).
      eexists; eexists; apply (execute_request_full self tr Hin Hall Hps).
Qed.

(** X7.  Whenever a request is served, the response holds one tensor for each
    requested output among output, image, scale, in that order; each tensor
    holds exactly one element for each row of the batch; and the decoder has
    been called once for each row, in the order of the batch. *)
Theorem served_response_shape decode resample self
    (request : InferenceRequest) (response : InferenceResponse)
    (tr tr' : trace) :
  execute_request decode resample self request tr = (Ok response, tr') ->
  exists t,
    get_input_tensor_by_name request "input" = Some t /\
    map (@name stacked) (output_tensors response) =
      filter (fun n => str_in n (requested_output_names request))
             ["output"; "image"; "scale"]%string /\
    Forall (fun T => List.length (stacked_elems (as_numpy T)) =
                     List.length (rows (as_numpy t)))
           (output_tensors response) /\
    tr' = tr ++ flat_map opened_by (rows (as_numpy t)).
Proof.
  intros H.
  apply execute_request_ok_inv in H
    as (t & (Hi & _) & Ho &
        [(Hr & -> & ->)|(_ & (_ & Him & Hsc) & ps & Hps & -> & ->)]).
  - exists t; split; [exact Hi|]; rewrite Hr.
    unfold empty_response, output_names; cbn [filter snd output_tensors].
    rewrite Ho.
    destruct (str_in "image" (requested_output_names request)),
             (str_in "scale" (requested_output_names request));
      cbn [map name flat_map]; rewrite app_nil_r;
      repeat split; repeat constructor.
  - exists t; split; [exact Hi|].
    cbn [filter]; rewrite Ho, Him, Hsc.
    split; [reflexivity|].
    pose proof (Forall2_length Hps) as Hlen.
    split.
    + unfold full_response; cbn [output_tensors].
      repeat constructor; cbn [as_numpy stacked_elems];
        rewrite length_map; symmetry; exact Hlen.
    + f_equal.
      clear Hlen; induction Hps as [|img p imgs ps (H0 & _) _ IH];
        [reflexivity|].
      cbn [map flat_map]; rewrite <- IH.
      unfold opened_by; rewrite H0; reflexivity.
Qed.

Lemma served_response_shape_witness :
  exists response tr',
    execute_request Fixture.decode Fixture.resample Fixture.self
      (Fixture.request_of [Fixture.grey_2x1; Fixture.rgb_1x1]
                          Fixture.all_outputs) [] = (Ok response, tr') /\
    map (@name stacked) (output_tensors response) =
      ["output"; "image"; "scale"]%string /\
    Forall (fun T => List.length (stacked_elems (as_numpy T)) = 2%nat)
           (output_tensors response) /\
    tr' = [Image_opened Fixture.grey_2x1; Image_opened Fixture.rgb_1x1].
Proof.
  destruct (@processes_exists Fixture.decode Fixture.resample
              Fixture.grey_2x1 _ eq_refl (or_introl (conj eq_refl eq_refl)))
    as (p1 & Hp1 & _).
  destruct (@processes_exists Fixture.decode Fixture.resample
              Fixture.rgb_1x1 _ eq_refl (or_intror eq_refl))
    as (p2 & Hp2 & _).
  pose proof (@execute_request_full Fixture.decode Fixture.resample
                Fixture.self
                (Fixture.request_of [Fixture.grey_2x1; Fixture.rgb_1x1]
                                    Fixture.all_outputs)
                (Fixture.input_of [Fixture.grey_2x1; Fixture.rgb_1x1])
                [p1; p2] []
                (conj eq_refl eq_refl)
                (conj eq_refl (conj eq_refl eq_refl))
                (Forall2_cons _ _ Hp1 (Forall2_cons _ _ Hp2 (Forall2_nil _))))
    as Hrun.
  destruct (@served_response_shape Fixture.decode Fixture.resample
              Fixture.self _ _ _ _ Hrun)
    as (t & Ht & Hnames & Hlen & Htr).
  injection Ht as <-.
  eexists; eexists; split; [exact Hrun|].
  split; [exact Hnames|]; split; [exact Hlen|exact Htr].
Defined.

(** ** The log of decoder calls *)

Lemma log_extending_ret {A} (a : A) : log_extending (ret a).
Proof. intros tr; unfold ret; cbn; rewrite app_nil_r; reflexivity. Qed.

Lemma log_extending_raise {A} (e : exn) : log_extending (@raise A e).
Proof. intros tr; unfold raise; cbn; rewrite app_nil_r; reflexivity. Qed.

Lemma log_extending_lift {A} (r : result A) : log_extending (lift r).
Proof. intros tr; unfold lift; cbn; rewrite app_nil_r; reflexivity. Qed.

Lemma log_extending_emit (ev : event) : log_extending (emit ev).
Proof. intros tr; reflexivity. Qed.

Lemma log_extending_bind {A B} (m : M A) (k : A -> M B) :
  log_extending m -> (forall a, log_extending (k a)) ->
  log_extending (bind m k).
Proof.
  intros Hm Hk tr; unfold bind; rewrite (Hm tr).
  destruct (m []) as [[a|e] t0]; cbn [fst snd].
  - rewrite (Hk a (tr ++ t0)), (Hk a t0); cbn [fst snd].
    rewrite app_assoc; reflexivity.
  - reflexivity.
Qed.

Ltac log_extending :=
  repeat first
    [ apply log_extending_ret
    | apply log_extending_raise
    | apply log_extending_lift
    | apply log_extending_emit
    | apply log_extending_bind
    | match goal with
      | |- forall _, _ => intro
      | |- log_extending (match ?x with _ => _ end) => destruct x
      | |- log_extending (if ?x then _ else _) => destruct x
      end ].

Lemma log_extending_for_each {A S} (body : A -> S -> M S) (xs : list A) :
  (forall x s, log_extending (body x s)) ->
  forall s, log_extending (for_each xs body s).
Proof.
  intros Hb; induction xs as [|x xs IH]; intros s; cbn [for_each];
    [apply log_extending_ret|].
  apply log_extending_bind; [apply Hb|exact IH].
Qed.

Section Log.

Variable decode : bytes -> option PilImage.
Variable resample : PilImage -> nat * nat -> nat -> nat -> nat -> Z.
Variable self : TritonPythonModel.

Local Abbreviation body := (loop_body decode resample).
Local Abbreviation run := (execute_request decode resample self).

Lemma log_extending_loop_body (img : list pyobj) (d : dict (list pyval)) :
  log_extending (body img d).
Proof. unfold loop_body, Image_open; log_extending. Qed.

Lemma log_extending_execute_request (request : InferenceRequest) :
  log_extending (run request).
Proof.
  unfold execute_request; log_extending.
  apply log_extending_for_each; intros; apply log_extending_loop_body.
Qed.

(** The loop body calls the decoder for its row, once if the row starts with
    a byte string, and for nothing else, whatever happens next. *)
Lemma loop_body_log (img : list pyobj) (d : dict (list pyval)) (tr : trace) :
  snd (body img d tr) = tr ++ opened_by img.
Proof.
  rewrite (log_extending_loop_body img d tr); cbn [snd]; f_equal.
  unfold loop_body, opened_by, bind, lift.
  destruct (nth_error img 0) as [[b|z]|]; try reflexivity.
  unfold Image_open, bind, emit, raise, ret; cbn [app].
  destruct (decode b) as [im|]; [|reflexivity].
  repeat match goal with
    | |- context [match ?x with _ => _ end] =>
        lazymatch x with
        | context [match _ with _ => _ end] => fail
        | _ => destruct x
        end
    end; reflexivity.
Qed.

Lemma for_each_log (imgs : list (list pyobj)) :
  forall d tr,
    exists n, (n <= List.length imgs)%nat /\
      snd (for_each imgs body d tr) = tr ++ flat_map opened_by (firstn n imgs).
Proof.
  induction imgs as [|img imgs IH]; intros d tr.
  - exists 0%nat; cbn; rewrite app_nil_r; auto.
  - cbn [for_each]; unfold bind.
    pose proof (loop_body_log img d tr) as Hb.
    destruct (body img d tr) as [[d1|e] tr1]; cbn [snd] in Hb; subst tr1.
    + destruct (IH d1 (tr ++ opened_by img)) as (n & Hn & ->).
      exists (S n); split; [cbn; lia|].
      cbn [firstn flat_map]; rewrite app_assoc; reflexivity.
    + exists 1%nat; split; [cbn; lia|].
      cbn [firstn flat_map snd]; rewrite app_nil_r; reflexivity.
Qed.

End Log.

Lemma firstn_S_nth_error {A} (l : list A) (k : nat) (x : A) :
  nth_error l k = Some x -> firstn (S k) l = firstn k l ++ [x].
Proof.
  revert k; induction l as [|a l IH]; intros [|k] H; cbn in H;
    try discriminate.
  - injection H as <-; reflexivity.
  - cbn [firstn app]; f_equal; apply IH; exact H.
Qed.

Section Failing_row.

Variable decode : bytes -> option PilImage.
Variable resample : PilImage -> nat * nat -> nat -> nat -> nat -> Z.
Variable self : TritonPythonModel.

Local Abbreviation body := (loop_body decode resample).
Local Abbreviation run := (execute_request decode resample self).

(** A loop that ends normally has called the decoder for every row. *)
Lemma for_each_ok_log (imgs : list (list pyobj)) :
  forall d d' tr tr',
    for_each imgs body d tr = (Ok d', tr') ->
    tr' = tr ++ flat_map opened_by imgs.
Proof.
  induction imgs as [|img imgs IH]; intros d d' tr tr' H.
  - cbn [for_each] in H; unfold ret in H; injection H as _ <-.
    cbn; rewrite app_nil_r; reflexivity.
  - cbn [for_each] in H; unfold bind in H.
    pose proof (loop_body_log decode resample img d tr) as Hb.
    destruct (body img d tr) as [[d1|e] tr1]; [|discriminate].
    cbn [snd] in Hb; subst tr1.
    rewrite (IH _ _ _ _ H); cbn [flat_map]; rewrite app_assoc; reflexivity.
Qed.

(** A loop that raises stops at the first row whose body raises: the rows in
    front of it are accepted, and the exception is that of its body. *)
Lemma for_each_raise_inv (imgs : list (list pyobj)) :
  forall d tr e tr',
    for_each imgs body d tr = (Raise e, tr') ->
    exists k img dk trk,
      nth_error imgs k = Some img /\
      for_each (firstn k imgs) body d tr = (Ok dk, trk) /\
      body img dk trk = (Raise e, tr').
Proof.
  induction imgs as [|img imgs IH]; intros d tr e tr' H.
  - cbn [for_each] in H; discriminate.
  - cbn [for_each] in H; unfold bind in H.
    destruct (body img d tr) as [[d1|e1] tr1] eqn:Eb.
    + destruct (IH _ _ _ _ H) as (k & img' & dk & trk & Hk & Hf & Hr).
      exists (S k), img', dk, trk; split; [exact Hk|]; split; [|exact Hr].
      cbn [firstn for_each]; unfold bind; rewrite Eb; exact Hf.
    + injection H as <- <-.
      exists 0%nat, img, d, tr; repeat split; assumption.
Qed.

(** Once the checks have passed, a loop that ends normally gives a
    response. *)
Lemma loop_ok_served (request : InferenceRequest) (t : Tensor batch_array)
    (d' : dict (list pyval)) (tr tr' : trace) :
  has_blob_input request t ->
  str_in "output" (requested_output_names request) = true ->
  for_each (rows (as_numpy t)) body
    (map (fun kn : string * string => (fst kn, []))
         (filter (fun kn => str_in (snd kn) (requested_output_names request))
                 output_names)) tr = (Ok d', tr') ->
  exists response, run request tr = (Ok response, tr').
Proof.
  intros Hin Ho Hf.
  destruct (rows (as_numpy t)) as [|img imgs] eqn:Er.
  - cbn [for_each] in Hf; unfold ret in Hf; injection Hf as _ <-.
    eexists; apply (execute_request_empty _ _ _ _ Hin Ho Er).
  - assert (Hk : str_in "image" (requested_output_names request) = true /\
                 str_in "scale" (requested_output_names request) = true).
    { cbn [for_each] in Hf; unfold bind in Hf.
      match type of Hf with
      | context [body img ?d0 tr] =>
          destruct (body img d0 tr) as [[d1|e] tr2] eqn:Eb; [|discriminate]
      end.
      apply loop_body_needs_keys in Eb as (Hs & Hi).
      split.
      - destruct (str_in "image" (requested_output_names request)) eqn:E;
          [reflexivity|].
        exfalso; apply Hi, batch_out_without; exact E.
      - destruct (str_in "scale" (requested_output_names request)) eqn:E;
          [reflexivity|].
        exfalso; apply Hs, batch_out_without; exact E. }
    destruct Hk as (Him & Hsc).
    unfold output_names at 1 in Hf; cbn [filter snd] in Hf.
    rewrite Ho, Him, Hsc in Hf; cbn [map fst] in Hf.
    apply for_each_full_inv in Hf as (ps & Hps & _ & ->).
    rewrite <- Er in Hps.
    eexists.
    apply (execute_request_full self tr Hin
             (conj Ho (conj Him Hsc)) Hps).
Qed.

End Failing_row.

(** X8.  Whatever the outcome of a request, the decoder is called for the
    rows of a prefix of the batch, once for each row that starts with a byte
    string and in the order of the batch, so that no buffer is opened twice.
    A request that is served has gone through the whole batch.  A request
    that raises has either failed one of the checks in front of the loop,
    with no decoder call, or it has stopped at a row k: the rows in front of
    row k are accepted, the body of the loop raises the exception of the
    request at row k, and the decoder calls are those of the rows 0 to k, so
    that no buffer after row k is opened. *)
Theorem decoder_calls_form_a_prefix decode resample self
    (request : InferenceRequest) (t : Tensor batch_array) (tr : trace) :
  get_input_tensor_by_name request "input" = Some t ->
  exists n, (n <= List.length (rows (as_numpy t)))%nat /\
    snd (execute_request decode resample self request tr) =
    tr ++ flat_map opened_by (firstn n (rows (as_numpy t))) /\
    (forall response,
       fst (execute_request decode resample self request tr) = Ok response ->
       n = List.length (rows (as_numpy t))) /\
    (forall e,
       fst (execute_request decode resample self request tr) = Raise e ->
       (n = 0%nat /\
        (str_in "output" (requested_output_names request) = false \/
         dtype (as_numpy t) <> np_object_)) \/
       (exists k img d,
          n = S k /\
          nth_error (rows (as_numpy t)) k = Some img /\
          fst (for_each (firstn k (rows (as_numpy t)))
                 (loop_body decode resample)
                 (map (fun kn : string * string => (fst kn, []))
                      (filter (fun kn =>
                                 str_in (snd kn)
                                        (requested_output_names request))
                              output_names))
                 tr) = Ok d /\
          fst (loop_body decode resample img d
                 (tr ++ flat_map opened_by (firstn k (rows (as_numpy t)))))
          = Raise e)).
Proof.
  intros Hi.
  destruct (str_in "output" (requested_output_names request)) eqn:Eo.
  2:{ exists 0%nat.
      rewrite (execute_request_no_output decode resample self request tr Hi Eo).
      cbn [fst snd firstn flat_map]; rewrite app_nil_r.
      repeat split; [lia|discriminate|].
      intros e _; left; auto. }
  destruct (is_np_object_ (dtype (as_numpy t))) eqn:Ed.
  2:{ assert (Hd : dtype (as_numpy t) <> np_object_)
        by (intros E; rewrite E in Ed; discriminate).
      exists 0%nat.
      rewrite (execute_request_bad_dtype decode resample self request tr
                 Hi Eo Hd).
      cbn [fst snd firstn flat_map]; rewrite app_nil_r.
      repeat split; [lia|discriminate|].
      intros e _; left; auto. }
  assert (Hd : dtype (as_numpy t) = np_object_)
    by (destruct (dtype (as_numpy t)); try discriminate; reflexivity).
  assert (Hin : has_blob_input request t) by (split; assumption).
  set (d0 := map (fun kn : string * string => (fst kn, @nil pyval))
                 (filter (fun kn =>
                            str_in (snd kn) (requested_output_names request))
                         output_names)).
  destruct (for_each (rows (as_numpy t)) (loop_body decode resample) d0 tr)
    as [[d'|e] tr'] eqn:Ef.
  - pose proof (for_each_ok_log _ _ _ _ _ Ef) as ->.
    destruct (@loop_ok_served decode resample self request t _ tr _ Hin Eo Ef)
      as (response & Hrun).
    exists (List.length (rows (as_numpy t))).
    rewrite Hrun, firstn_all; cbn [fst snd].
    repeat split; [lia|discriminate].
  - destruct (@for_each_raise_inv decode resample _ _ _ _ _ Ef)
      as (k & img & dk & trk & Hk & Hfk & Hbk).
    pose proof (for_each_ok_log _ _ _ _ _ Hfk) as ->.
    pose proof (loop_body_log decode resample img dk
                  (tr ++ flat_map opened_by (firstn k (rows (as_numpy t)))))
      as Hlog.
    rewrite Hbk in Hlog; cbn [snd] in Hlog; subst tr'.
    assert (Hrun : execute_request decode resample self request tr =
                   (Raise e,
                    tr ++ flat_map opened_by
                            (firstn (S k) (rows (as_numpy t))))).
    { unfold execute_request, input_name, output_name.
      rewrite Hi, Eo, Hd; cbn [negb is_np_object_].
      unfold bind at 1; fold d0; rewrite Ef.
      rewrite (firstn_S_nth_error _ _ Hk), flat_map_app, app_assoc.
      cbn [flat_map]; rewrite app_nil_r; reflexivity. }
    exists (S k); rewrite Hrun; cbn [fst snd].
    split; [apply nth_error_Some; rewrite Hk; discriminate|].
    split; [reflexivity|]; split; [discriminate|].
    intros e' He'; injection He' as <-; right.
    exists k, img, dk; fold d0; rewrite Hfk, Hbk; auto.
Qed.

Lemma decoder_calls_form_a_prefix_witness :
  exists n, (n <= 3)%nat /\
    snd (execute_request Fixture.decode Fixture.resample Fixture.self
           (Fixture.request_of
              [Fixture.rgb_1x1; Fixture.corrupt; Fixture.grey_2x1]
              Fixture.all_outputs) []) =
    flat_map opened_by
      (firstn n [[PyBytes Fixture.rgb_1x1]; [PyBytes Fixture.corrupt];
                 [PyBytes Fixture.grey_2x1]]).
Proof.
  destruct (@decoder_calls_form_a_prefix Fixture.decode Fixture.resample
              Fixture.self
              (Fixture.request_of
                 [Fixture.rgb_1x1; Fixture.corrupt; Fixture.grey_2x1]
                 Fixture.all_outputs)
              (Fixture.input_of
                 [Fixture.rgb_1x1; Fixture.corrupt; Fixture.grey_2x1])
              [] eq_refl)
    as (n & Hn & Hlog & _).
  exists n; split; [exact Hn|exact Hlog].
Defined.

Lemma find_skips (before after : list (Tensor batch_array))
    (t : Tensor batch_array) (n : string) :
  name t = n -> Forall (fun x => name x <> n) before ->
  find (fun x => String.eqb (name x) n) (before ++ t :: after) = Some t.
Proof.
  intros Ht; induction 1 as [|x before Hx _ IH]; cbn [app find].
  - rewrite Ht, String.eqb_refl; reflexivity.
  - destruct (String.eqb_spec (name x) n) as [E|_]; [contradiction|exact IH].
Qed.

(** X9.  Only the first input tensor named ["input"] is read: input tensors
    with other names in front of it, and any input tensor after it, have no
    effect on the outcome of the request. *)
Theorem only_the_input_tensor_is_read decode resample self
    (request : InferenceRequest)
    (before after : list (Tensor batch_array)) (t : Tensor batch_array)
    (tr : trace) :
  inputs request = before ++ t :: after ->
  name t = "input"%string ->
  Forall (fun x => name x <> "input"%string) before ->
  execute_request decode resample self request tr =
  execute_request decode resample self
    {| inputs := [t];
       requested_output_names := requested_output_names request;
       request_id := request_id request |} tr.
Proof.
  intros Hin Ht Hb.
  unfold execute_request, get_input_tensor_by_name, input_name.
  rewrite Hin, (@find_skips before after t _ Ht Hb).
  cbn [inputs find requested_output_names request_id].
  rewrite Ht; reflexivity.
Qed.

Lemma only_the_input_tensor_is_read_witness :
  execute_request Fixture.decode Fixture.resample Fixture.self
    {| inputs := [mk_Tensor "mask" (mk_batch_array np_float32 [[PyNum 0]]);
                  Fixture.input_of [Fixture.grey_2x1];
                  Fixture.input_of [Fixture.corrupt]];
       requested_output_names := Fixture.all_outputs;
       request_id := "4" |} [] =
  execute_request Fixture.decode Fixture.resample Fixture.self
    {| inputs := [Fixture.input_of [Fixture.grey_2x1]];
       requested_output_names := Fixture.all_outputs;
       request_id := "4" |} [].
Proof.
  apply (@only_the_input_tensor_is_read Fixture.decode Fixture.resample
           Fixture.self
           {| inputs := [mk_Tensor "mask"
                           (mk_batch_array np_float32 [[PyNum 0]]);
                         Fixture.input_of [Fixture.grey_2x1];
                         Fixture.input_of [Fixture.corrupt]];
              requested_output_names := Fixture.all_outputs;
              request_id := "4" |}
           [mk_Tensor "mask" (mk_batch_array np_float32 [[PyNum 0]])]
           [Fixture.input_of [Fixture.corrupt]]
           (Fixture.input_of [Fixture.grey_2x1]) [] eq_refl eq_refl).
  repeat constructor; discriminate.
Defined.

(** X10.  Once ["output"] is requested, the list of requested names matters
    only through which of the names output, image, scale it contains: names
    the model does not have, repetitions and the order of the names change
    nothing in the outcome. *)
Theorem requested_names_matter_by_membership decode resample self
    (request : InferenceRequest) (requested : list string) (tr : trace) :
  str_in "output" (requested_output_names request) = true ->
  str_in "output" requested = true ->
  str_in "image" requested = str_in "image" (requested_output_names request) ->
  str_in "scale" requested = str_in "scale" (requested_output_names request) ->
  execute_request decode resample self
    {| inputs := inputs request;
       requested_output_names := requested;
       request_id := request_id request |} tr =
  execute_request decode resample self request tr.
Proof.
  intros Ho Ho' Hi Hs.
  unfold execute_request, get_input_tensor_by_name, output_name.
  cbn [inputs requested_output_names request_id].
  destruct (find _ (inputs request)) as [t|]; [|reflexivity].
  rewrite Ho, Ho'; cbn [negb].
  destruct (negb (is_np_object_ (dtype (as_numpy t)))); [reflexivity|].
  unfold output_names at 1 3; cbn [filter snd].
  rewrite Ho, Ho', Hi, Hs; reflexivity.
Qed.

Lemma requested_names_matter_by_membership_witness :
  execute_request Fixture.decode Fixture.resample Fixture.self
    (Fixture.request_of [Fixture.grey_2x1]
       ["scale"; "boxes"; "image"; "scale"; "output"]%string) [] =
  execute_request Fixture.decode Fixture.resample Fixture.self
    (Fixture.request_of [Fixture.grey_2x1] Fixture.all_outputs) [].
Proof.
  apply (@requested_names_matter_by_membership Fixture.decode Fixture.resample
           Fixture.self
           (Fixture.request_of [Fixture.grey_2x1] Fixture.all_outputs)
           ["scale"; "boxes"; "image"; "scale"; "output"]%string []);
    reflexivity.
Defined.

(** X11.  [execute] on a list of requests is all or nothing: its outcome is
    the list of the responses of the requests, in their order, when every
    request is served, and otherwise the exception of the first request that
    is not served, with no response at all. *)
Theorem execute_is_all_or_nothing decode resample self
    (inference_requests : list InferenceRequest) (tr : trace) :
  fst (execute decode resample self inference_requests tr) =
  result_map (fun request =>
                fst (execute_request decode resample self request []))
             inference_requests.
Proof.
  unfold execute; revert tr.
  induction inference_requests as [|request rest IH]; intros tr;
    cbn [for_list result_map]; [reflexivity|].
  unfold bind at 1.
  rewrite (log_extending_execute_request decode resample self request tr).
  destruct (execute_request decode resample self request [])
    as [[response|e] t0]; cbn [fst snd result_bind]; [|reflexivity].
  unfold bind, ret; specialize (IH (tr ++ t0)).
  destruct (for_list rest (execute_request decode resample self) (tr ++ t0))
    as [[responses|e] t1]; cbn [fst] in IH; rewrite <- IH; reflexivity.
Qed.

(** ** [initialize] *)

Section Initialize_properties.

Variable json_loads : string -> init_result json.
Variable get_output_config_by_name :
  json -> string -> init_result (option (dict json)).
Variable triton_string_to_numpy : json -> init_result np_dtype.

Local Abbreviation init :=
  (initialize json_loads get_output_config_by_name triton_string_to_numpy).
Local Abbreviation declared :=
  (declares get_output_config_by_name triton_string_to_numpy).

Lemma check_complete (k : string) (c : dict json) :
  complete c -> check_output_config (k, Some c) = Initialized tt.
Proof.
  intros (Hd & Hn & Ht); unfold check_output_config.
  rewrite Hd, Hn, Ht; reflexivity.
Qed.

Lemma check_passes_inv (k : string) (cfg : option (dict json)) (u : unit) :
  In k ["output"; "image"; "scale"]%string ->
  check_output_config (k, cfg) = Initialized u ->
  exists c, cfg = Some c /\ complete c.
Proof.
  intros Hk H; unfold check_output_config in H.
  assert (Hn : init_item output_names k = Initialized k).
  { destruct Hk as [<-|[<-|[<-|[]]]]; reflexivity. }
  rewrite Hn in H; cbn [init_bind] in H.
  destruct cfg as [c|]; [|discriminate].
  exists c; split; [reflexivity|]; unfold complete.
  destruct (key_in "dims" c); [|discriminate].
  destruct (key_in "name" c); [|discriminate].
  destruct (key_in "data_type" c); [|discriminate].
  auto.
Qed.

Lemma initialize_declared (args : dict string) (text : string)
    (model_config : json) (ty_o ty_i ty_s : np_dtype) :
  dict_get args "model_config" = Some text ->
  json_loads text = Initialized model_config ->
  declared model_config "output" ty_o ->
  declared model_config "image" ty_i ->
  declared model_config "scale" ty_s ->
  init args =
  Initialized [("output"%string, ty_o); ("image"%string, ty_i);
               ("scale"%string, ty_s)].
Proof.
  intros Ha Hj (co & vo & Hco & Hko & Hdo & Hto)
         (ci & vi & Hci & Hki & Hdi & Hti) (cs & vs & Hcs & Hks & Hds & Hts).
  unfold initialize, init_item; rewrite Ha; cbn [init_bind]; rewrite Hj.
  cbn [init_bind]; unfold output_names.
  cbn [init_map snd fst]; rewrite Hco, Hci, Hcs; cbn [init_bind init_map].
  rewrite !check_complete by assumption; cbn [init_bind snd fst].
  rewrite Hdo, Hdi, Hds; cbn [init_bind]; rewrite Hto, Hti, Hts.
  reflexivity.
Qed.

(** X12.  [initialize] succeeds exactly when [args] holds the configuration
    text, the text parses, and the parsed configuration declares each of the
    outputs output, image and scale with its dims, name and data type, the
    data type being one the host's table resolves.  It then stores exactly
    three element types, under the keys output, image, scale in that order:
    the ones the three data types resolve to. *)
Theorem initialize_succeeds_iff (args : dict string)
    (output_dtypes : dict np_dtype) :
  initialize json_loads get_output_config_by_name triton_string_to_numpy args
  = Initialized output_dtypes
  <->
  exists text model_config ty_o ty_i ty_s,
    dict_get args "model_config" = Some text /\
    json_loads text = Initialized model_config /\
    declares get_output_config_by_name triton_string_to_numpy
      model_config "output" ty_o /\
    declares get_output_config_by_name triton_string_to_numpy
      model_config "image" ty_i /\
    declares get_output_config_by_name triton_string_to_numpy
      model_config "scale" ty_s /\
    output_dtypes =
      [("output"%string, ty_o); ("image"%string, ty_i); ("scale"%string, ty_s)].
Proof.
  split.
  - intros H; unfold initialize, init_item in H.
    destruct (dict_get args "model_config") as [text|] eqn:Ha; [|discriminate].
    cbn [init_bind] in H.
    destruct (json_loads text) as [mc|e] eqn:Hj; [|discriminate].
    cbn [init_bind] in H; unfold output_names in H.
    cbn [init_map snd fst] in H.
    destruct (get_output_config_by_name mc "output") as [co|e] eqn:Hco;
      [|discriminate].
    cbn [init_bind] in H.
    destruct (get_output_config_by_name mc "image") as [ci|e] eqn:Hci;
      [|discriminate].
    cbn [init_bind] in H.
    destruct (get_output_config_by_name mc "scale") as [cs|e] eqn:Hcs;
      [|discriminate].
    cbn [init_bind init_map] in H.
    destruct (check_output_config ("output"%string, co)) as [[]|e] eqn:Cko;
      [|discriminate].
    cbn [init_bind] in H.
    destruct (check_output_config ("image"%string, ci)) as [[]|e] eqn:Cki;
      [|discriminate].
    cbn [init_bind] in H.
    destruct (check_output_config ("scale"%string, cs)) as [[]|e] eqn:Cks;
      [|discriminate].
    cbn [init_bind] in H.
    apply check_passes_inv in Cko as (c1 & -> & Hk1); [|cbn; auto].
    apply check_passes_inv in Cki as (c2 & -> & Hk2); [|cbn; auto].
    apply check_passes_inv in Cks as (c3 & -> & Hk3); [|cbn; auto].
    cbn [snd fst] in H.
    destruct (dict_get c1 "data_type") as [v1|] eqn:D1; [|discriminate].
    cbn [init_bind] in H.
    destruct (triton_string_to_numpy v1) as [ty1|e] eqn:T1; [|discriminate].
    cbn [init_bind] in H.
    destruct (dict_get c2 "data_type") as [v2|] eqn:D2; [|discriminate].
    cbn [init_bind] in H.
    destruct (triton_string_to_numpy v2) as [ty2|e] eqn:T2; [|discriminate].
    cbn [init_bind] in H.
    destruct (dict_get c3 "data_type") as [v3|] eqn:D3; [|discriminate].
    cbn [init_bind] in H.
    destruct (triton_string_to_numpy v3) as [ty3|e] eqn:T3; [|discriminate].
    cbn [init_bind] in H; injection H as <-.
    exists text, mc, ty1, ty2, ty3.
    repeat split; try assumption; try reflexivity;
      eexists; eexists; repeat split; try eassumption;
      first [apply Hk1 | apply Hk2 | apply Hk3].
  - intros (text & mc & ty_o & ty_i & ty_s & Ha & Hj & Ho & Hi & Hs & ->).
    apply (initialize_declared _ Ha Hj Ho Hi Hs).
Qed.

End Initialize_properties.

Section Initialize_errors.

Variable json_loads : string -> init_result json.
Variable get_output_config_by_name :
  json -> string -> init_result (option (dict json)).
Variable triton_string_to_numpy : json -> init_result np_dtype.

(** X13.  When the three lookups return, and some output is not declared or
    lacks its dims, name or data type, [initialize] raises the [ValueError] of
    the first such output in the order output, image, scale, and reports, in
    this order of priority, that the output is not defined, that it has no
    dims, no name, no data type.  No data type is resolved before all three
    declarations are checked: what the table does with the data types of the
    other outputs has no influence. *)
Theorem initialize_reports_first_incomplete (args : dict string)
    (text : string) (model_config : json)
    (cfg_of : string -> option (dict json))
    (before after : list string) (k : string) :
  dict_get args "model_config" = Some text ->
  json_loads text = Initialized model_config ->
  (forall n, In n ["output"; "image"; "scale"]%string ->
             get_output_config_by_name model_config n = Initialized (cfg_of n)) ->
  ["output"; "image"; "scale"]%string = before ++ k :: after ->
  Forall (fun n => exists c, cfg_of n = Some c /\ complete c) before ->
  ~ (exists c, cfg_of k = Some c /\ complete c) ->
  initialize json_loads get_output_config_by_name triton_string_to_numpy args
  = Aborted
      (Config_ValueError
         match cfg_of k with
         | None => Output_not_defined k
         | Some c =>
             if negb (key_in "dims" c) then Dims_not_defined k
             else if negb (key_in "name" c) then Name_not_defined k
             else Data_type_not_defined k
         end).
Proof.
  intros Ha Hj Hcfg Hsplit Hbefore Hk.
  unfold initialize, init_item; rewrite Ha; cbn [init_bind]; rewrite Hj.
  cbn [init_bind]; unfold output_names; cbn [init_map snd fst].
  rewrite !Hcfg by (cbn; auto); cbn [init_bind init_map].
  assert (Hbad : forall n, In n ["output"; "image"; "scale"]%string -> n = k ->
            check_output_config (n, cfg_of n) =
            Aborted
              (Config_ValueError
                 match cfg_of k with
                 | None => Output_not_defined k
                 | Some c =>
                     if negb (key_in "dims" c) then Dims_not_defined k
                     else if negb (key_in "name" c) then Name_not_defined k
                     else Data_type_not_defined k
                 end)).
  { intros n Hn <-; unfold check_output_config.
    assert (En : init_item output_names n = Initialized n)
      by (destruct Hn as [<-|[<-|[<-|[]]]]; reflexivity).
    rewrite En; cbn [init_bind].
    destruct (cfg_of n) as [c|]; [|reflexivity].
    destruct (key_in "dims" c) eqn:E1; [|reflexivity].
    destruct (key_in "name" c) eqn:E2; [|reflexivity].
    destruct (key_in "data_type" c) eqn:E3; [|reflexivity].
    exfalso; apply Hk; exists c; repeat split; assumption. }
  destruct before as [|b0 [|b1 [|b2 rest]]]; cbn [app] in Hsplit.
  - injection Hsplit as <- _.
    rewrite (Hbad "output"%string) by (cbn; auto); reflexivity.
  - injection Hsplit as <- <- _.
    inversion Hbefore as [|? ? (c0 & E0 & C0) _]; subst.
    rewrite E0, (check_complete _ C0); cbn [init_bind].
    rewrite (Hbad "image"%string) by (cbn; auto); reflexivity.
  - injection Hsplit as <- <- <- _.
    inversion Hbefore as [|? ? (c0 & E0 & C0) Hrest]; subst.
    inversion Hrest as [|? ? (c1 & E1 & C1) _]; subst.
    rewrite E0, E1, !check_complete by assumption; cbn [init_bind].
    rewrite (Hbad "scale"%string) by (cbn; auto); reflexivity.
  - injection Hsplit as _ _ _ Hnil; destruct rest; discriminate.
Qed.

End Initialize_errors.

Lemma initialize_reports_first_incomplete_witness :
  initialize Fixture_config.json_loads Fixture_config.get_output_config_by_name
    Fixture_config.triton_string_to_numpy [("model_config", "bad")]%string
  = Aborted (Config_ValueError (Data_type_not_defined "scale")).
Proof.
  apply (@initialize_reports_first_incomplete
           Fixture_config.json_loads Fixture_config.get_output_config_by_name
           Fixture_config.triton_string_to_numpy
           [("model_config", "bad")]%string "bad" Fixture_config.bad_config
           (fun n =>
              match Fixture_config.get_output_config_by_name
                      Fixture_config.bad_config n with
              | Initialized cfg => cfg
              | Aborted _ => None
              end)
           ["output"; "image"]%string [] "scale"%string).
  - reflexivity.
  - reflexivity.
  - intros n [<-|[<-|[<-|[]]]]; reflexivity.
  - reflexivity.
  - repeat constructor; eexists; (split; [reflexivity|]);
      repeat split; reflexivity.
  - intros (c & Hc & _ & _ & Ht); vm_compute in Hc; injection Hc as <-.
    discriminate.
Defined.

(** X14.  [initialize] and [execute] compose: with the model that a complete
    configuration initialises, a request that is served gets its three
    tensors cast to the element types that the configuration declares for
    output, image and scale. *)
Theorem initialized_model_uses_declared_types
    json_loads get_output_config_by_name triton_string_to_numpy
    decode resample
    (args : dict string) (text : string) (model_config : json)
    (ty_o ty_i ty_s : np_dtype)
    (request : InferenceRequest) (t : Tensor batch_array)
    (ps : list processed) (tr : trace) :
  dict_get args "model_config" = Some text ->
  json_loads text = Initialized model_config ->
  declares get_output_config_by_name triton_string_to_numpy
    model_config "output" ty_o ->
  declares get_output_config_by_name triton_string_to_numpy
    model_config "image" ty_i ->
  declares get_output_config_by_name triton_string_to_numpy
    model_config "scale" ty_s ->
  has_blob_input request t -> requests_all request ->
  Forall2 (processes decode resample) (rows (as_numpy t)) ps ->
  exists output_dtypes,
    initialize json_loads get_output_config_by_name triton_string_to_numpy args
    = Initialized output_dtypes /\
    execute_request decode resample (model_with output_dtypes) request tr =
    (Ok {| output_tensors :=
             [mk_Tensor "output"
                (np_asarray (map (fun p => TensorArr (p_tensor p)) ps) ty_o);
              mk_Tensor "image"
                (np_asarray (map (fun p => ImageArr (p_resized p)) ps) ty_i);
              mk_Tensor "scale"
                (np_asarray (map (fun p => scale_of (p_pil p)) ps) ty_s)] |},
     tr ++ map (fun p => Image_opened (p_blob p)) ps).
Proof.
  intros Ha Hj Ho Hi Hs Hin Hall Hps.
  eexists; split; [eapply initialize_declared; eassumption|].
  rewrite (execute_request_full _ tr Hin Hall Hps); reflexivity.
Qed.

Lemma initialized_model_uses_declared_types_witness :
  exists output_dtypes outs imgs scales,
    initialize Fixture_config.json_loads
      Fixture_config.get_output_config_by_name
      Fixture_config.triton_string_to_numpy [("model_config", "good")]%string
    = Initialized output_dtypes /\
    fst (execute_request Fixture.decode Fixture.resample
           (model_with output_dtypes)
           (Fixture.request_of [Fixture.rgb_1x1] Fixture.all_outputs) []) =
    Ok {| output_tensors :=
            [mk_Tensor "output" (np_asarray outs np_float32);
             mk_Tensor "image" (np_asarray imgs np_uint8);
             mk_Tensor "scale" (np_asarray scales np_float32)] |}.
Proof.
  destruct (@processes_exists Fixture.decode Fixture.resample
              Fixture.rgb_1x1 _ eq_refl (or_intror eq_refl))
    as (p & Hp & _).
  assert (Hdecl : forall n ty,
            In (n, ty)
               [("output", np_float32); ("image", np_uint8);
                ("scale", np_float32)]%string ->
            declares Fixture_config.get_output_config_by_name
              Fixture_config.triton_string_to_numpy
              Fixture_config.good_config n ty).
  { intros n ty [E|[E|[E|[]]]]; injection E as <- <-;
      eexists; eexists; repeat split; reflexivity. }
  destruct (@initialized_model_uses_declared_types
              Fixture_config.json_loads
              Fixture_config.get_output_config_by_name
              Fixture_config.triton_string_to_numpy
              Fixture.decode Fixture.resample
              [("model_config", "good")]%string "good"
              Fixture_config.good_config np_float32 np_uint8 np_float32
              (Fixture.request_of [Fixture.rgb_1x1] Fixture.all_outputs)
              (Fixture.input_of [Fixture.rgb_1x1]) [p] []
              eq_refl eq_refl
              (Hdecl _ _ (or_introl eq_refl))
              (Hdecl _ _ (or_intror (or_introl eq_refl)))
              (Hdecl _ _ (or_intror (or_intror (or_introl eq_refl))))
              (conj eq_refl eq_refl)
              (conj eq_refl (conj eq_refl eq_refl))
              (Forall2_cons _ _ Hp (Forall2_nil _)))
    as (d & Hinit & Hrun).
  exists d; eexists; eexists; eexists; split; [exact Hinit|].
  rewrite Hrun; reflexivity.
Defined.

(** ** Colour images *)

(** X15.  For a buffer that decodes to a three-band image, the loop body
    appends the resized array itself to ["image"]: the bands keep the order
    they have in the decoded image, sample (y, x, c) being band c of the
    resized image at column x and row y; the tensor appended to ["output"]
    holds the normalised value of that sample at (c, y, x); and the scale pair
    of the decoded image is appended to ["scale"]. *)
Theorem colour_image_kept decode resample (b : bytes) (im : PilImage)
    (lo li ls : list pyval) (tr : trace) :
  decode b = Some im -> bands (mode im) = 3%nat ->
  exists t,
    loop_body decode resample [PyBytes b]
      [("output"%string, lo); ("image"%string, li); ("scale"%string, ls)] tr =
    (Ok [("output"%string, lo ++ [TensorArr t]);
         ("image"%string,
          li ++ [ImageArr (np_array (resize resample im newsize))]);
         ("scale"%string, ls ++ [scale_of im])],
     tr ++ [Image_opened b]) /\
    forall y x c, (c < 3)%nat ->
      item (np_array (resize resample im newsize)) [y; x; c] =
        resample im newsize x y c /\
      item t [c; y; x] =
        float32_div
          (float32_sub (float32_of_Z (resample im newsize x y c)) (mean_255 c))
          (variance_255 c).
Proof.
  intros Hd Hb.
  destruct (resize_and_normalize_colour resample im Hb)
    as (n & t & Hr & Hn & Ht & _).
  exists t; split.
  - apply (@loop_body_full decode resample [PyBytes b]
             (mk_processed b im (np_array (resize resample im newsize)) t)).
    repeat split; assumption.
  - intros y x c Hc.
    assert (Hi : item (np_array (resize resample im newsize)) [y; x; c] =
                 resample im newsize x y c)
      by (rewrite np_array_item_bands; [reflexivity|cbn [resize mode]; lia]).
    split; [exact Hi|].
    assert (Hs : shape (np_array (resize resample im newsize))
                 = [1920; 2240; 3]%nat)
      by (rewrite resized_shape, Hb; reflexivity).
    destruct (normalize_then_transpose _ Hs)
      as (n' & t' & Hn' & Ht' & _ & _ & Hit).
    rewrite Hn in Hn'; injection Hn' as <-.
    rewrite Ht in Ht'; injection Ht' as <-.
    destruct (Hit c y x Hc) as (Hnv & ->); rewrite Hnv, Hi; reflexivity.
Qed.

Lemma colour_image_kept_witness :
  exists im t,
    Fixture.decode Fixture.rgb_1x1 = Some im /\
    fst (loop_body Fixture.decode Fixture.resample [PyBytes Fixture.rgb_1x1]
           [("output"%string, []); ("image"%string, []); ("scale"%string, [])]
           []) =
    Ok [("output"%string, [TensorArr t]);
        ("image"%string,
         [ImageArr (np_array (resize Fixture.resample im newsize))]);
        ("scale"%string, [scale_of im])] /\
    item (np_array (resize Fixture.resample im newsize)) [5; 7; 1]%nat = 128%Z /\
    item t [0; 5; 7]%nat = S754_finite false 9432605 (-22).
Proof.
  assert (Hd : exists im, Fixture.decode Fixture.rgb_1x1 = Some im /\
                          bands (mode im) = 3%nat /\
                          Fixture.resample im newsize 7 5 1 = 128%Z /\
                          Fixture.resample im newsize 7 5 0 = 255%Z)
    by (eexists; repeat split; reflexivity).
  destruct Hd as (im & Hd & Hb & Hg & Hred).
  destruct (@colour_image_kept Fixture.decode Fixture.resample
              Fixture.rgb_1x1 im [] [] [] [] Hd Hb)
    as (t & Hrun & Hit).
  exists im, t; rewrite Hrun; repeat split; try assumption.
  - destruct (Hit 5%nat 7%nat 1%nat) as (-> & _); [lia|exact Hg].
  - destruct (Hit 5%nat 7%nat 0%nat) as (_ & ->); [lia|].
    rewrite Hred; vm_compute; reflexivity.
Defined.
